(** * Academic chatbot: the request handler of [backend/lambda_function.py]

    A shallow embedding of the Lambda handler and of the functions it calls
    ([Config], [BedrockClient.generate_response], [AcademicChatbot],
    [create_response], [validate_request], [lambda_handler]), followed by the
    properties of the handler's validation, routing and response envelope.

    Python values are the values [json.loads] produces; Python strings are
    sequences of code points; a raised exception is an explicit [Raise]
    result.  What the handler takes from the interpreter and its libraries
    ([os.environ], [int], [float], [json], [boto3]) is a record [Runtime]:
    every theorem holds for all runtimes, and the closing examples run the
    handler on a test double in the manner of [scripts/test_lambda.py]. *)

From Stdlib Require Import ZArith NArith List String Ascii Bool Lia PrimFloat.
From Stdlib Require Import DecimalString.
Import ListNotations.

Set Implicit Arguments.
Set Warnings "-register-all".

(** ** Python strings *)

(** A [str] is a sequence of Unicode code points: [len] is the number of
    code points and [strip] looks at them one by one. *)
Definition pystr : Type := list N.

(** An ASCII literal of the source as a [pystr]. *)
Definition str (s : string) : pystr :=
  map N_of_ascii (list_ascii_of_string s).

Fixpoint pystr_eqb (a b : pystr) : bool :=
  match a, b with
  | [], [] => true
  | x :: a', y :: b' => N.eqb x y && pystr_eqb a' b'
  | _, _ => false
  end.

(** [str.isspace] on one code point (CPython's [_PyUnicode_IsWhitespace]). *)
Definition isspace (c : N) : bool :=
  ((9 <=? c) && (c <=? 13)            (* \t \n \v \f \r *)
   || (28 <=? c) && (c <=? 32)        (* FS GS RS US and the space *)
   || (c =? 133) || (c =? 160)        (* NEL, no-break space *)
   || (c =? 5760)                     (* U+1680 *)
   || (8192 <=? c) && (c <=? 8202)    (* U+2000 .. U+200A *)
   || (c =? 8232) || (c =? 8233)      (* U+2028, U+2029 *)
   || (c =? 8239) || (c =? 8287)      (* U+202F, U+205F *)
   || (c =? 12288))%N.                (* U+3000 *)

Fixpoint lstrip (s : pystr) : pystr :=
  match s with
  | c :: s' => if isspace c then lstrip s' else s
  | [] => []
  end.

Definition rstrip (s : pystr) : pystr := rev (lstrip (rev s)).

(** [s.strip()]: leading and trailing whitespace removed. *)
Definition strip (s : pystr) : pystr := rstrip (lstrip s).

(** ** Python values and exceptions *)

(** The values of the program: what [json.loads] returns and [json.dumps]
    accepts.  A [dict] keeps its insertion order; [dict_get] reads the first
    binding of a key (a Python dict has one binding per key). *)
Inductive pyval : Type :=
| PNone
| PBool (b : bool)
| PInt (z : Z)
| PFloat (f : float)
| PStr (s : pystr)
| PList (l : list pyval)
| PDict (d : list (pystr * pyval)).

(** Instances of [Exception].  The handler tells [json.JSONDecodeError] from
    every other class and nothing else; [detail] is the text that only
    reaches the log. *)
Inductive exn : Type :=
| JSONDecodeError (detail : string)
| AttributeError (detail : string)
| KeyError (detail : string)
| TypeError (detail : string)
| IndexError (detail : string)
| ValueError (detail : string)
| OtherException (class detail : string).

(** [isinstance(e, json.JSONDecodeError)] *)
Definition is_JSONDecodeError (e : exn) : bool :=
  match e with JSONDecodeError _ => true | _ => false end.

(** The outcome of evaluating an expression: a value, or a raised exception. *)
Inductive result (A : Type) : Type :=
| Ok (a : A)
| Raise (e : exn).
Arguments Raise {A} e.

Definition bind {A B : Type} (m : result A) (k : A -> result B) : result B :=
  match m with
  | Ok a => k a
  | Raise e => Raise e
  end.

Declare Scope py_scope.
Delimit Scope py_scope with py.
Notation "x <- m ;; k" := (bind m (fun x => k))
  (at level 61, m at next level, right associativity) : py_scope.
Open Scope py_scope.

(** [try: m except Exception as e: logger.error(...); raise e] *)
Definition try_reraise {A : Type} (m : result A) : result A :=
  match m with
  | Ok a => Ok a
  | Raise e => Raise e
  end.

(** *** Truth value, attribute access and subscripts *)

(** [bool(v)] *)
Definition truthy (v : pyval) : bool :=
  match v with
  | PNone => false
  | PBool b => b
  | PInt z => negb (z =? 0)%Z
  | PFloat f => negb (PrimFloat.eqb f 0%float)
  | PStr s => match s with [] => false | _ => true end
  | PList l => match l with [] => false | _ => true end
  | PDict d => match d with [] => false | _ => true end
  end.

Fixpoint dict_get (key : pystr) (d : list (pystr * pyval)) : option pyval :=
  match d with
  | [] => None
  | (k, v) :: d' => if pystr_eqb key k then Some v else dict_get key d'
  end.

(** [v.get(key, default)]: only a dict has the method. *)
Definition py_get (v : pyval) (key : pystr) (default : pyval) : result pyval :=
  match v with
  | PDict d =>
      match dict_get key d with
      | Some x => Ok x
      | None => Ok default
      end
  | _ => Raise (AttributeError "object has no attribute 'get'")
  end.

(** [v.strip()]: only a str has the method. *)
Definition py_strip (v : pyval) : result pystr :=
  match v with
  | PStr s => Ok (strip s)
  | _ => Raise (AttributeError "object has no attribute 'strip'")
  end.

(** [v[key]] for a str key. *)
Definition py_getitem_str (v : pyval) (key : pystr) : result pyval :=
  match v with
  | PDict d =>
      match dict_get key d with
      | Some x => Ok x
      | None => Raise (KeyError "key")
      end
  | PList _ => Raise (TypeError "list indices must be integers or slices, not str")
  | PStr _ => Raise (TypeError "string indices must be integers")
  | _ => Raise (TypeError "object is not subscriptable")
  end.

(** [v[0]]: the keys of a decoded JSON object are strings, so a dict has no
    key [0]. *)
Definition py_getitem_0 (v : pyval) : result pyval :=
  match v with
  | PList (x :: _) => Ok x
  | PList [] => Raise (IndexError "list index out of range")
  | PStr (c :: _) => Ok (PStr [c])
  | PStr [] => Raise (IndexError "string index out of range")
  | PDict _ => Raise (KeyError "0")
  | _ => Raise (TypeError "object is not subscriptable")
  end.

(** [len(v)] *)
Definition py_len (v : pyval) : result nat :=
  match v with
  | PStr s => Ok (List.length s)
  | PList l => Ok (List.length l)
  | PDict d => Ok (List.length d)
  | _ => Raise (TypeError "object has no len()")
  end.

(** [v == s] for a str [s]: only an equal str compares equal. *)
Definition py_eq_str (v : pyval) (s : pystr) : bool :=
  match v with
  | PStr t => pystr_eqb t s
  | _ => false
  end.

(** ** The runtime *)

(** A [boto3] client, known by the service and region it was made for. *)
Record boto_client : Type := {
  service_name : pystr;
  region_name : pystr
}.

(** What the module takes from outside itself.
    - [getenv]: the process environment [os.environ], read and never written;
    - [py_int], [py_float]: the builtins [int] and [float] on a str;
    - [json_loads], [json_dumps]: the [json] module, on the values above;
    - [dumps_raises]: the exception [json.dumps] raises on a value it
      refuses, if it refuses it ([RecursionError] on a value nested too
      deep, [ValueError] on an int beyond the limit of digits); it is asked
      about the event, the one value the module serialises outside a [try];
    - [boto3_client]: [boto3.client(service, region_name=...)];
    - [invoke_model]: [client.invoke_model(modelId=..., body=...)] followed
      by [response['body'].read()], the text of the reply. *)
Record Runtime : Type := {
  getenv : pystr -> option pystr;
  py_int : pystr -> result Z;
  py_float : pystr -> result float;
  json_loads : pystr -> result pyval;
  json_dumps : pyval -> pystr;
  dumps_raises : pyval -> option exn;
  boto3_client : pystr -> pystr -> result boto_client;
  invoke_model : boto_client -> pystr -> pystr -> result pystr
}.

(** The response envelope: the dict [create_response] returns. *)
Record response : Type := {
  statusCode : Z;
  headers : list (pystr * pystr);
  body : pystr
}.

(** The state of a [BedrockClient] and of an [AcademicChatbot]. *)
Record BedrockClient : Type := {
  region : pystr;
  client : boto_client;
  model_id : pystr
}.

Record AcademicChatbot : Type := {
  bedrock_client : BedrockClient
}.

(** *** The handler's trace *)

(** The five [return] statements of [lambda_handler]. *)
Inductive branch : Type :=
| Preflight          (* return create_response(200, {}) *)
| ValidationError    (* return create_response(400, {'error': validation_error}) *)
| Success            (* return create_response(200, {'response': ..., ...}) *)
| ParseError         (* except json.JSONDecodeError: return create_response(400, ...) *)
| InternalError.     (* except Exception: return create_response(500, ...) *)

(** What one run of the handler did, in order: the stages it entered, each
    with its outcome, and the [return] it left by. *)
Inductive step : Type :=
| JsonLoads (raw : pystr) (r : result pyval)
    (* body = json.loads(event['body']) *)
| Validate (b : pyval) (r : result (option pystr))
    (* validation_error = validate_request(body) *)
| Inference (user_message : pystr) (r : result pyval)
    (* chatbot = AcademicChatbot(); chatbot.process_message(user_message) *)
| Return (b : branch).

(** A computation of the handler: the steps taken and the outcome. *)
Definition traced (A : Type) : Type := (list step * result A)%type.

Definition tbind {A B : Type} (m : traced A) (k : A -> traced B) : traced B :=
  match m with
  | (t, Ok a) => let (t', r) := k a in (t ++ t', r)
  | (t, Raise e) => (t, Raise e)
  end.

(** A call that leaves no step. *)
Definition quiet {A : Type} (r : result A) : traced A := ([], r).

(** A stage: the call and its outcome are recorded. *)
Definition stage {A : Type} (mk : result A -> step) (r : result A) : traced A :=
  ([mk r], r).

(** [return resp], from the [return] statement [b]. *)
Definition leave (b : branch) (resp : response) : traced response :=
  ([Return b], Ok resp).

(** [try: m except Exception as e: h e] *)
Definition try_except {A : Type} (m : traced A) (h : exn -> traced A) : traced A :=
  match m with
  | (t, Ok a) => (t, Ok a)
  | (t, Raise e) => let (t', r) := h e in (t ++ t', r)
  end.

Notation "x <~ m ;; k" := (tbind m (fun x => k))
  (at level 61, m at next level, right associativity) : py_scope.

(** The [return] statements a trace went through, and the stages it entered. *)
Definition returns (t : list step) : list branch :=
  flat_map (fun s => match s with Return b => [b] | _ => [] end) t.

Definition is_parse (s : step) : bool :=
  match s with JsonLoads _ _ => true | _ => false end.
Definition is_validate (s : step) : bool :=
  match s with Validate _ _ => true | _ => false end.
Definition is_inference (s : step) : bool :=
  match s with Inference _ _ => true | _ => false end.

(** ** The module [lambda_function] *)

(** *** Constants of the source *)

Definition nl : pystr := [10%N].

Definition default_model_id : pystr :=
  str "anthropic.claude-3-haiku-20240307-v1:0".

Definition fallback_text : pystr :=
  str "I apologize, but I couldn't generate a response. Please try again with a different question.".

Definition msg_body_required : pystr := str "Request body is required".
Definition msg_message_required : pystr := str "Message is required".
Definition msg_too_long : pystr :=
  str "Message is too long. Maximum 1000 characters allowed.".
Definition msg_invalid_json : pystr := str "Invalid JSON in request body".
Definition msg_internal_error : pystr := str "Internal server error".

(** The text of the prompt before and after the user's message. *)
Definition prompt_head : pystr :=
  str "Human: You are an academic assistant designed to help students and researchers with educational topics. " ++ nl ++
  str "        Please provide a helpful, accurate, and educational response to the following question. " ++ nl ++
  str "        If the question is not academic in nature, politely guide the user back to academic topics." ++ nl ++
  str "        " ++ nl ++
  str "        Question: ".

Definition prompt_tail : pystr :=
  nl ++
  str "        " ++ nl ++
  str "        Please provide a comprehensive yet concise answer. If appropriate, you can:" ++ nl ++
  str "        1. Explain key concepts" ++ nl ++
  str "        2. Provide examples" ++ nl ++
  str "        3. Suggest related topics for further study" ++ nl ++
  str "        4. Mention important principles or theories" ++ nl ++
  str "        " ++ nl ++
  str "        Assistant:".

(** *** validate_request *)

(** [validate_request(body)]: the error message, or [None] when the request
    is valid. *)
Definition validate_request (b : pyval) : result (option pystr) :=
  if negb (truthy b) then Ok (Some msg_body_required)
  else
    m <- py_get b (str "message") (PStr []) ;;
    user_message <- py_strip m ;;
    if negb (truthy (PStr user_message)) then Ok (Some msg_message_required)
    else if (1000 <? List.length user_message)%nat then Ok (Some msg_too_long)
    else Ok None.

(** [if validation_error:] on an [Optional[str]]. *)
Definition truthy_opt (v : option pystr) : bool :=
  match v with
  | Some s => truthy (PStr s)
  | None => false
  end.

(** [body.get('message', '').strip()], as the handler repeats it after
    validation. *)
Definition extract_message (b : pyval) : result pystr :=
  m <- py_get b (str "message") (PStr []) ;;
  py_strip m.

(** *** Config *)

Module Config.
Section Accessors.
Variable R : Runtime.

(** [os.environ.get(key, default)] *)
Definition environ_get (key default : pystr) : pystr :=
  match getenv R key with
  | Some v => v
  | None => default
  end.

Definition get_aws_region : pystr :=
  environ_get (str "AWS_REGION") (str "us-east-1").

Definition get_bedrock_model_id : pystr :=
  environ_get (str "BEDROCK_MODEL_ID") default_model_id.

Definition get_max_tokens : result Z :=
  py_int R (environ_get (str "MAX_TOKENS") (str "1000")).

Definition get_temperature : result float :=
  py_float R (environ_get (str "TEMPERATURE") (str "0.5")).

Definition get_allowed_origins : pystr :=
  environ_get (str "ALLOWED_ORIGINS") (str "*").

Definition get_environment : pystr :=
  environ_get (str "ENVIRONMENT") (str "dev").
End Accessors.
End Config.

Section Handler.
Variable R : Runtime.

(** *** BedrockClient *)

(** [BedrockClient.__init__] *)
Definition BedrockClient_init : result BedrockClient :=
  let region := Config.get_aws_region R in
  client <- boto3_client R (str "bedrock-runtime") region ;;
  Ok {| region := region;
        client := client;
        model_id := Config.get_bedrock_model_id R |}.

(** The payload of the request to the model. *)
Definition request_payload (max_tokens : Z) (temperature : float)
    (prompt : pystr) : pyval :=
  PDict [ (str "anthropic_version", PStr (str "bedrock-2023-05-31"));
          (str "max_tokens", PInt max_tokens);
          (str "temperature", PFloat temperature);
          (str "messages",
           PList [ PDict [ (str "role", PStr (str "user"));
                           (str "content", PStr prompt) ] ]) ].

(** [content and len(content) > 0], as a truth value. *)
Definition content_nonempty (content : pyval) : result bool :=
  if truthy content then
    n <- py_len content ;;
    Ok (0 <? n)%nat
  else Ok false.

(** [BedrockClient.generate_response] *)
Definition generate_response (self : BedrockClient) (prompt : pystr)
    : result pyval :=
  try_reraise (
    max_tokens <- Config.get_max_tokens R ;;
    temperature <- Config.get_temperature R ;;
    let payload := request_payload max_tokens temperature prompt in
    raw <- invoke_model R (client self) (model_id self) (json_dumps R payload) ;;
    response_body <- json_loads R raw ;;
    content <- py_getitem_str response_body (str "content") ;;
    nonempty <- content_nonempty content ;;
    if nonempty then
      first <- py_getitem_0 content ;;
      py_getitem_str first (str "text")
    else Ok (PStr fallback_text)).

(** *** AcademicChatbot *)

(** [AcademicChatbot.__init__] *)
Definition AcademicChatbot_init : result AcademicChatbot :=
  bc <- BedrockClient_init ;;
  Ok {| bedrock_client := bc |}.

(** [AcademicChatbot.create_prompt] *)
Definition create_prompt (user_message : pystr) : pystr :=
  prompt_head ++ user_message ++ prompt_tail.

(** [AcademicChatbot.process_message] *)
Definition process_message (self : AcademicChatbot) (user_message : pystr)
    : result pyval :=
  let prompt := create_prompt user_message in
  generate_response (bedrock_client self) prompt.

(** *** create_response *)

Definition create_response (status_code : Z) (b : pyval) : response :=
  let allowed_origins := Config.get_allowed_origins R in
  {| statusCode := status_code;
     headers :=
       [ (str "Content-Type", str "application/json");
         (str "Access-Control-Allow-Origin", allowed_origins);
         (str "Access-Control-Allow-Methods", str "POST, OPTIONS, GET");
         (str "Access-Control-Allow-Headers",
          str "Content-Type,X-Amz-Date,Authorization,X-Api-Key,X-Amz-Security-Token");
         (str "Access-Control-Allow-Credentials", str "true") ];
     body := json_dumps R b |}.

(** *** lambda_handler *)

(** The two lines of the inference stage: the chatbot is built, then asked. *)
Definition run_chatbot (user_message : pystr) : result pyval :=
  chatbot <- AcademicChatbot_init ;;
  process_message chatbot user_message.

(** The request body: [event['body']] when the key is there and its value
    is truthy (decoded when it is a str), an empty dict otherwise.  The
    event is a dict here: [event.get] was called on it before. *)
Definition parse_body (event : pyval) : traced pyval :=
  match event with
  | PDict d =>
      match dict_get (str "body") d with
      | Some eb =>
          if truthy eb then
            match eb with
            | PStr s => stage (JsonLoads s) (json_loads R s)
            | _ => quiet (Ok eb)
            end
          else quiet (Ok (PDict []))
      | None => quiet (Ok (PDict []))
      end
  | _ => quiet (Raise (TypeError "argument is not a dict"))
  end.

(** The body of the handler's [try]. *)
Definition handler_try (event : pyval) : traced response :=
  method <~ quiet (py_get event (str "httpMethod") PNone) ;;
  if py_eq_str method (str "OPTIONS") then
    leave Preflight (create_response 200 (PDict []))
  else
    b <~ parse_body event ;;
    validation_error <~ stage (Validate b) (validate_request b) ;;
    if truthy_opt validation_error then
      leave ValidationError
        (create_response 400
           (PDict [ (str "error",
                     match validation_error with
                     | Some s => PStr s
                     | None => PNone
                     end) ]))
    else
      user_message <~ quiet (extract_message b) ;;
      bot_response <~ stage (Inference user_message) (run_chatbot user_message) ;;
      leave Success
        (create_response 200
           (PDict [ (str "response", bot_response);
                    (str "environment", PStr (Config.get_environment R));
                    (str "model_used", PStr (Config.get_bedrock_model_id R)) ])).

(** The [except] clauses, tried in the order of the source. *)
Definition handler_except (e : exn) : traced response :=
  if is_JSONDecodeError e then
    leave ParseError
      (create_response 400 (PDict [ (str "error", PStr msg_invalid_json) ]))
  else
    leave InternalError
      (create_response 500
         (PDict [ (str "error", PStr msg_internal_error);
                  (str "environment", PStr (Config.get_environment R)) ])).

(** The [try] statement of [lambda_handler], from its [try:] to the end of
    its last [except] clause. *)
Definition lambda_handler_try (event : pyval) : traced response :=
  try_except (handler_try event) handler_except.

(** The first statement of [lambda_handler], before the [try]:
    [logger.info(f"Received event: {json.dumps(event)}")].  The text goes
    to the log; an exception of [json.dumps] is caught by nothing. *)
Definition log_event (event : pyval) : result pystr :=
  match dumps_raises R event with
  | Some e => Raise e
  | None => Ok (str "Received event: " ++ json_dumps R event)
  end.

(** [lambda_handler(event, context)]: the event is logged, then the [try]
    statement runs.  The other calls of the logger are on texts and leave
    no mark on the result. *)
Definition lambda_handler (event : pyval) : traced response :=
  logged <~ quiet (log_event event) ;;
  lambda_handler_try event.

End Handler.

(** ** A test double for the runtime *)

(** A runtime to run the handler on, as a test stubs [boto3]: the environment
    is a table, the inference call gives a canned reply, and [json.loads],
    [int] and [float] answer on the inputs the examples use and raise
    [unexpected] on any other. *)
Module Mock.

Definition quote : pystr := [34%N].
Definition quoted (s : pystr) : pystr := quote ++ s ++ quote.

Definition unexpected {A : Type} : result A :=
  Raise (OtherException "AssertionError" "unexpected call").

Fixpoint table_get {A : Type} (key : pystr) (t : list (pystr * A)) : option A :=
  match t with
  | [] => None
  | (k, v) :: t' => if pystr_eqb key k then Some v else table_get key t'
  end.

Definition is_digit (c : N) : bool := ((48 <=? c) && (c <=? 57))%N.
Definition is_letter (c : N) : bool :=
  ((65 <=? c) && (c <=? 90) || (97 <=? c) && (c <=? 122))%N.

(** [int(s)] on a run of ASCII digits; a str with an ASCII letter in it is
    no integer in base 10. *)
Definition int (s : pystr) : result Z :=
  match s with
  | [] => Raise (ValueError "invalid literal for int() with base 10")
  | _ =>
      if forallb is_digit s then
        Ok (fold_left (fun acc c => 10 * acc + (Z.of_N c - 48))%Z s 0%Z)
      else if existsb is_letter s then
        Raise (ValueError "invalid literal for int() with base 10")
      else unexpected
  end.

(** [float(s)] on the two texts the examples use. *)
Definition float (s : pystr) : result PrimFloat.float :=
  if pystr_eqb s (str "0.5") then Ok 0.5%float
  else if pystr_eqb s (str "warm") then
    Raise (ValueError "could not convert string to float")
  else unexpected.

(** The request bodies and replies of the examples, as texts. *)
Definition body_of_message (m : pystr) : pystr :=
  str "{" ++ quoted (str "message") ++ str ": " ++ quoted m ++ str "}".

Definition reply_with_text (t : pystr) : pystr :=
  str "{" ++ quoted (str "content") ++ str ": [{" ++
  quoted (str "type") ++ str ": " ++ quoted (str "text") ++ str ", " ++
  quoted (str "text") ++ str ": " ++ quoted t ++ str "}]}".

Definition reply_empty : pystr :=
  str "{" ++ quoted (str "content") ++ str ": []}".

Definition photosynthesis : pystr := str "What is photosynthesis?".
Definition answer : pystr := str "Photosynthesis is...".

(** [json.loads] on those texts. *)
Definition loads_table : list (pystr * result pyval) :=
  [ (body_of_message photosynthesis,
     Ok (PDict [ (str "message", PStr photosynthesis) ]));
    (body_of_message [], Ok (PDict [ (str "message", PStr []) ]));
    (str "{" ++ quoted (str "message") ++ str ": 7}",
     Ok (PDict [ (str "message", PInt 7) ]));
    (reply_with_text answer,
     Ok (PDict [ (str "content",
                  PList [ PDict [ (str "type", PStr (str "text"));
                                  (str "text", PStr answer) ] ]) ]));
    (reply_empty, Ok (PDict [ (str "content", PList []) ]));
    (str "invalid json", Raise (JSONDecodeError "Expecting value"));
    ([], Raise (JSONDecodeError "Expecting value"));
    (str "null", Ok PNone);
    (str "[]", Ok (PList []));
    (str "42", Ok (PInt 42));
    (str "[1,2]", Ok (PList [ PInt 1; PInt 2 ]));
    (quoted (str "hello"), Ok (PStr (str "hello"))) ].

Definition loads (s : pystr) : result pyval :=
  match table_get s loads_table with
  | Some r => r
  | None => unexpected
  end.

(** [json.dumps] with its defaults: [", "] and [": "] as separators and
    every character outside the printable ASCII range escaped. *)
Definition hex_digit (n : N) : N :=
  (if n <? 10 then 48 + n else 87 + n)%N.

Definition backslash : pystr := [92%N].

Definition u_escape (c : N) : pystr :=
  backslash ++ str "u" ++
  [ hex_digit (c / 4096 mod 16); hex_digit (c / 256 mod 16);
    hex_digit (c / 16 mod 16); hex_digit (c mod 16) ]%N.

Definition escape_char (c : N) : pystr :=
  (if c =? 34 then backslash ++ quote
   else if c =? 92 then backslash ++ backslash
   else if c =? 10 then backslash ++ str "n"
   else if c =? 13 then backslash ++ str "r"
   else if c =? 9 then backslash ++ str "t"
   else if c =? 8 then backslash ++ str "b"
   else if c =? 12 then backslash ++ str "f"
   else if (32 <=? c) && (c <=? 126) then [c]
   else if c <? 65536 then u_escape c
   else u_escape (55296 + (c - 65536) / 1024)
        ++ u_escape (56320 + (c - 65536) mod 1024))%N.

Definition dumps_str (s : pystr) : pystr := quoted (flat_map escape_char s).

Definition dumps_int (z : Z) : pystr :=
  str (NilZero.string_of_int (Z.to_int z)).

(** The floats of the examples; the repr of any other is not computed. *)
Definition dumps_float (f : PrimFloat.float) : pystr :=
  if PrimFloat.Leibniz.eqb f 0.5%float then str "0.5" else str "<float>".

Fixpoint dumps (v : pyval) : pystr :=
  match v with
  | PNone => str "null"
  | PBool true => str "true"
  | PBool false => str "false"
  | PInt z => dumps_int z
  | PFloat f => dumps_float f
  | PStr s => dumps_str s
  | PList l =>
      str "[" ++
      (fix items (l : list pyval) : pystr :=
         match l with
         | [] => []
         | [x] => dumps x
         | x :: l' => dumps x ++ str ", " ++ items l'
         end) l ++ str "]"
  | PDict d =>
      str "{" ++
      (fix items (d : list (pystr * pyval)) : pystr :=
         match d with
         | [] => []
         | [(k, x)] => dumps_str k ++ str ": " ++ dumps x
         | (k, x) :: d' => dumps_str k ++ str ": " ++ dumps x ++ str ", " ++ items d'
         end) d ++ str "}"
  end.

(** What [json.dumps] refuses, as far as the double knows it: an int of
    more than 4300 digits anywhere in the value, on which the conversion of
    the int to text raises [ValueError]. *)
Fixpoint has_huge_int (v : pyval) : bool :=
  match v with
  | PInt z => (10 ^ 4300 <=? Z.abs z)%Z
  | PList l => existsb has_huge_int l
  | PDict d => existsb (fun kv => has_huge_int (snd kv)) d
  | _ => false
  end.

Definition refuses (v : pyval) : option exn :=
  if has_huge_int v
  then Some (ValueError "Exceeds the limit (4300 digits) for integer string conversion")
  else None.

(** The runtime: an environment table and the reply of the inference call. *)
Definition runtime (env : list (pystr * pystr)) (reply : result pystr) : Runtime :=
  {| getenv := fun key => table_get key env;
     py_int := int;
     py_float := float;
     json_loads := loads;
     json_dumps := dumps;
     dumps_raises := refuses;
     boto3_client := fun service r =>
       Ok {| service_name := service; region_name := r |};
     invoke_model := fun _ _ _ => reply |}.

(** The environment [scripts/test_lambda.py] sets. *)
Definition test_env : list (pystr * pystr) :=
  [ (str "AWS_REGION", str "us-east-1");
    (str "BEDROCK_MODEL_ID", default_model_id);
    (str "MAX_TOKENS", str "1000");
    (str "TEMPERATURE", str "0.5");
    (str "ALLOWED_ORIGINS", str "*");
    (str "ENVIRONMENT", str "test");
    (str "PROJECT_NAME", str "academic-chatbot-test") ].

(** An event with a str body, and the same as a preflight request. *)
Definition post (b : pystr) : pyval := PDict [ (str "body", PStr b) ].
Definition options (b : pystr) : pyval :=
  PDict [ (str "httpMethod", PStr (str "OPTIONS")); (str "body", PStr b) ].

End Mock.

(** ** The specification's words *)

(** The Validator of the specification: either an error text or "valid" with
    the trimmed message, never both. *)
Inductive verdict : Type :=
| Invalid (error : pystr)
| Valid (message : pystr).

(** The rules of the Validator, checked in order, the first failure winning:
    the body absent or empty; the [message] field absent, or empty after
    trimming; the trimmed message longer than 1000 characters. *)
Definition Validator (body_is_empty : bool) (message : option pystr) : verdict :=
  if body_is_empty then Invalid msg_body_required
  else
    match message with
    | None => Invalid msg_message_required
    | Some m =>
        let trimmed := strip m in
        if (List.length trimmed =? 0)%nat then Invalid msg_message_required
        else if (1000 <? List.length trimmed)%nat then Invalid msg_too_long
        else Valid trimmed
    end.

(** A body as the Validator reads it: absent ([None] in Python) or a
    string-keyed mapping, empty or not, whose [message] field is absent or a
    text.  A body of any other shape has no reading. *)
Definition body_view (b : pyval) : option (bool * option pystr) :=
  match b with
  | PNone => Some (true, None)
  | PDict d =>
      match dict_get (str "message") d with
      | None => Some (match d with [] => true | _ => false end, None)
      | Some (PStr m) => Some (match d with [] => true | _ => false end, Some m)
      | Some _ => None
      end
  | _ => None
  end.

(** The status code each [return] statement of the handler passes to
    [create_response]. *)
Definition status_of (b : branch) : Z :=
  match b with
  | Preflight => 200
  | ValidationError => 400
  | Success => 200
  | ParseError => 400
  | InternalError => 500
  end.

(** The event asks for a preflight: [event.get('httpMethod') == 'OPTIONS']. *)
Definition is_preflight (event : pyval) : bool :=
  match py_get event (str "httpMethod") PNone with
  | Ok method => py_eq_str method (str "OPTIONS")
  | Raise _ => false
  end.

(** The body mapping of the internal-error envelope and of the others. *)
Definition internal_error_body (R : Runtime) : pyval :=
  PDict [ (str "error", PStr msg_internal_error);
          (str "environment", PStr (Config.get_environment R)) ].

Definition error_body (message : pystr) : pyval :=
  PDict [ (str "error", PStr message) ].

Definition success_body (R : Runtime) (t : pyval) : pyval :=
  PDict [ (str "response", t);
          (str "environment", PStr (Config.get_environment R));
          (str "model_used", PStr (Config.get_bedrock_model_id R)) ].

(** The header mapping every envelope carries, for an allowed origin. *)
Definition fixed_headers (origin : pystr) : list (pystr * pystr) :=
  [ (str "Content-Type", str "application/json");
    (str "Access-Control-Allow-Origin", origin);
    (str "Access-Control-Allow-Methods", str "POST, OPTIONS, GET");
    (str "Access-Control-Allow-Headers",
     str "Content-Type,X-Amz-Date,Authorization,X-Api-Key,X-Amz-Security-Token");
    (str "Access-Control-Allow-Credentials", str "true") ].

(** The value of a header in a header mapping. *)
Fixpoint header_get (name : pystr) (h : list (pystr * pystr)) : option pystr :=
  match h with
  | [] => None
  | (k, v) :: h' => if pystr_eqb name k then Some v else header_get name h'
  end.

(** ** The runs of the handler *)

(** The [return] an exception leaves by, and the envelope it is given. *)
Definition exn_branch (e : exn) : branch :=
  if is_JSONDecodeError e then ParseError else InternalError.

Definition exn_response (R : Runtime) (e : exn) : response :=
  if is_JSONDecodeError e
  then create_response R 400 (error_body msg_invalid_json)
  else create_response R 500 (internal_error_body R).

(** The runs of the [try] statement of [lambda_handler] on an event
    ([lambda_handler_try]), path by path: the steps of
    the trace and the envelope returned.  [tp] is the trace of the body's
    decoding: empty, or the one call of [json.loads]. *)
Inductive handler_run (R : Runtime) (event : pyval) : list step -> response -> Prop :=
| run_not_a_dict :
    (forall d, event <> PDict d) ->
    handler_run R event [Return InternalError]
      (create_response R 500 (internal_error_body R))
| run_preflight :
    is_preflight event = true ->
    handler_run R event [Return Preflight] (create_response R 200 (PDict []))
| run_body_raises tp e :
    is_preflight event = false ->
    parse_body R event = (tp, Raise e) ->
    handler_run R event (tp ++ [Return (exn_branch e)]) (exn_response R e)
| run_validation_raises tp b e :
    is_preflight event = false ->
    parse_body R event = (tp, Ok b) ->
    validate_request b = Raise e ->
    handler_run R event
      (tp ++ [Validate b (Raise e); Return (exn_branch e)]) (exn_response R e)
| run_invalid tp b message :
    is_preflight event = false ->
    parse_body R event = (tp, Ok b) ->
    validate_request b = Ok (Some message) ->
    truthy (PStr message) = true ->
    handler_run R event
      (tp ++ [Validate b (Ok (Some message)); Return ValidationError])
      (create_response R 400 (error_body message))
| run_inference_raises tp b m e :
    is_preflight event = false ->
    parse_body R event = (tp, Ok b) ->
    validate_request b = Ok None ->
    extract_message b = Ok m ->
    run_chatbot R m = Raise e ->
    handler_run R event
      (tp ++ [Validate b (Ok None); Inference m (Raise e); Return (exn_branch e)])
      (exn_response R e)
| run_success tp b m t :
    is_preflight event = false ->
    parse_body R event = (tp, Ok b) ->
    validate_request b = Ok None ->
    extract_message b = Ok m ->
    run_chatbot R m = Ok t ->
    handler_run R event
      (tp ++ [Validate b (Ok None); Inference m (Ok t); Return Success])
      (create_response R 200 (success_body R t)).

(** ** Shapes of texts and events *)

(** A text with no blank at its head; a text with no blank at its end is
    one whose reverse has none at its head. *)
Definition starts_clean (s : pystr) : Prop :=
  match s with
  | [] => True
  | c :: _ => isspace c = false
  end.

(** The envelope the handler gives for a decoded body: what validation,
    the extraction of the message and the chatbot make of it. *)
Definition answer (R : Runtime) (b : pyval) : response :=
  match validate_request b with
  | Raise e => exn_response R e
  | Ok (Some message) => create_response R 400 (error_body message)
  | Ok None =>
      match extract_message b with
      | Raise e => exn_response R e
      | Ok m =>
          match run_chatbot R m with
          | Ok t => create_response R 200 (success_body R t)
          | Raise e => exn_response R e
          end
      end
  end.

(** * Properties *)

Unset Implicit Arguments.

Arguments str : simpl never.
Arguments strip : simpl never.
Arguments create_response : simpl never.
Arguments Nat.ltb : simpl never.
Arguments Nat.leb : simpl never.

(** ** Strings *)

Lemma pystr_eqb_refl (s : pystr) : pystr_eqb s s = true.
Proof.
  induction s as [|c s IH]; cbn; [reflexivity|].
  now rewrite N.eqb_refl, IH.
Qed.

Lemma pystr_eqb_eq (a b : pystr) : pystr_eqb a b = true <-> a = b.
Proof.
  split; [|intros ->; apply pystr_eqb_refl].
  revert b; induction a as [|x a IH]; intros [|y b]; cbn; try discriminate; auto.
  intros H; apply andb_true_iff in H as [Hxy Hab].
  apply N.eqb_eq in Hxy; subst y.
  now rewrite (IH b Hab).
Qed.

Lemma py_eq_str_true (v : pyval) (s : pystr) :
  py_eq_str v s = true <-> v = PStr s.
Proof.
  destruct v; cbn; try (split; [discriminate|intros H; discriminate H]).
  rewrite pystr_eqb_eq; split; [now intros ->|now intros [= ->]].
Qed.

(** The truth value of a text is that it has a character. *)
Lemma truthy_str (s : pystr) : truthy (PStr s) = negb (List.length s =? 0)%nat.
Proof. now destruct s. Qed.

(** The error texts of the validator are not empty. *)
Lemma validation_messages_truthy :
  truthy_opt (Some msg_body_required) = true /\
  truthy_opt (Some msg_message_required) = true /\
  truthy_opt (Some msg_too_long) = true.
Proof. repeat split; reflexivity. Qed.

(** ** validate_request *)

(** The validator leaves with an error text or with [None]; when it raises,
    the body is truthy and is not a mapping, or its message is not a text. *)
Lemma validate_request_raises (b : pyval) (e : exn) :
  validate_request b = Raise e ->
  truthy b = true /\
  ((forall d, b <> PDict d) \/
   exists d v, b = PDict d /\ dict_get (str "message") d = Some v /\
               forall s, v <> PStr s).
Proof.
  unfold validate_request.
  destruct (truthy b) eqn:Ht; cbn [negb]; [|discriminate].
  intros H; split; [reflexivity|].
  destruct b; try (left; intros d0; discriminate).
  right. cbn in H.
  destruct (dict_get (str "message") d) as [v|] eqn:Hg; cbn in H.
  - exists d, v; repeat split; auto.
    intros s ->. cbn in H.
    destruct (strip s); cbn in H; [discriminate H|].
    destruct (1000 <? _)%nat; discriminate H.
  - destruct (strip []); cbn in H; [discriminate H|].
    destruct (1000 <? _)%nat; discriminate H.
Qed.

(** What the validator answers when it answers: one of its three texts, or
    [None]. *)
Lemma validate_request_answers (b : pyval) (v : option pystr) :
  validate_request b = Ok v ->
  v = Some msg_body_required \/ v = Some msg_message_required \/
  v = Some msg_too_long \/ v = None.
Proof.
  unfold validate_request.
  destruct (negb (truthy b)); [intros [= <-]; auto|].
  destruct (py_get b (str "message") (PStr [])) as [m|]; cbn [bind]; [|discriminate].
  destruct (py_strip m) as [u|]; cbn [bind]; [|discriminate].
  destruct (negb (truthy (PStr u))); [intros [= <-]; auto|].
  destruct (1000 <? _)%nat; intros [= <-]; auto.
Qed.

(** ** The handler, path by path *)

(** The lemmas of this part, and the theorems below that name
    [lambda_handler_try], are on the [try] statement of the handler: what
    it makes of an event once the first statement has logged it.  By
    [lambda_handler_logged], further down, they hold of [lambda_handler]
    on every event that [json.dumps] takes. *)

Section Runs.
Variable R : Runtime.

Lemma tbind_quiet_ok {A B : Type} (a : A) (k : A -> traced B) :
  tbind (quiet (Ok a)) k = k a.
Proof. unfold tbind, quiet. now destruct (k a). Qed.

Lemma handler_except_eq (e : exn) :
  handler_except R e = leave (exn_branch e) (exn_response R e).
Proof. unfold handler_except, exn_branch, exn_response; now destruct e. Qed.

(** The decoding of the body calls [json.loads] once or not at all, and
    only on a text that is not empty. *)
Lemma parse_body_trace (event : pyval) (tp : list step) (rb : result pyval) :
  parse_body R event = (tp, rb) ->
  tp = [] \/
  exists d s, event = PDict d /\ dict_get (str "body") d = Some (PStr s) /\
              s <> [] /\ tp = [JsonLoads s (json_loads R s)] /\
              rb = json_loads R s.
Proof.
  unfold parse_body, stage, quiet.
  destruct event as [| | | | |l|d]; try (intros [= <- <-]; now left).
  destruct (dict_get (str "body") d) as [eb|] eqn:Hb; [|intros [= <- <-]; now left].
  destruct (truthy eb) eqn:Ht; [|intros [= <- <-]; now left].
  destruct eb; try (intros [= <- <-]; now left).
  intros [= <- <-]; right; exists d, s; repeat split; auto.
  intros ->; discriminate Ht.
Qed.

(** An event that is not a dict has no method [get]. *)
Lemma lambda_handler_not_a_dict (event : pyval) :
  (forall d, event <> PDict d) ->
  lambda_handler_try R event =
    ([Return InternalError], Ok (create_response R 500 (internal_error_body R))).
Proof.
  intros H; destruct event; try reflexivity.
  now destruct (H d).
Qed.

Lemma lambda_handler_preflight (event : pyval) :
  is_preflight event = true ->
  lambda_handler_try R event =
    ([Return Preflight], Ok (create_response R 200 (PDict []))).
Proof.
  unfold is_preflight, lambda_handler_try, handler_try.
  destruct (py_get event (str "httpMethod") PNone) as [method|];
    [|discriminate].
  intros H; cbn [quiet tbind]; rewrite H; reflexivity.
Qed.

(** After the preflight test the handler decodes the body, validates it,
    and runs the chatbot. *)
Lemma lambda_handler_post (event : pyval) (d : list (pystr * pyval)) :
  event = PDict d ->
  is_preflight event = false ->
  lambda_handler_try R event =
    try_except
      (b <~ parse_body R event ;;
       validation_error <~ stage (Validate b) (validate_request b) ;;
       if truthy_opt validation_error then
         leave ValidationError
           (create_response R 400
              (PDict [ (str "error",
                        match validation_error with
                        | Some s => PStr s
                        | None => PNone
                        end) ]))
       else
         user_message <~ quiet (extract_message b) ;;
         bot_response <~ stage (Inference user_message) (run_chatbot R user_message) ;;
         leave Success (create_response R 200 (success_body R bot_response)))
      (handler_except R).
Proof.
  intros -> H. unfold is_preflight in H.
  unfold lambda_handler_try, handler_try.
  cbn [py_get] in *.
  destruct (dict_get (str "httpMethod") d) as [method|];
    rewrite tbind_quiet_ok, H; reflexivity.
Qed.

(** Every event has a run, and the handler returns its envelope. *)
Lemma lambda_handler_run (event : pyval) :
  exists tr resp,
    lambda_handler_try R event = (tr, Ok resp) /\ handler_run R event tr resp.
Proof.
  destruct (is_preflight event) eqn:Hpre.
  { eexists _, _; split; [now apply lambda_handler_preflight|].
    now apply run_preflight. }
  destruct event as [| | | | |l|d];
    try (eexists _, _; split;
         [apply lambda_handler_not_a_dict; intros d0; discriminate
         |apply run_not_a_dict; intros d0; discriminate]).
  rewrite (lambda_handler_post (PDict d) d eq_refl Hpre).
  destruct (parse_body R (PDict d)) as [tp [b|e]] eqn:Hp.
  2:{ unfold try_except, tbind. rewrite handler_except_eq. cbn [leave].
      eexists _, _; split; [reflexivity|]. now apply run_body_raises. }
  destruct (validate_request b) as [v|e] eqn:Hv.
  2:{ unfold try_except, tbind, stage. rewrite Hv, handler_except_eq.
      cbn [leave]. rewrite <- app_assoc.
      eexists _, _; split; [reflexivity|]. now apply run_validation_raises. }
  destruct (validate_request_answers _ _ Hv) as [-> | [-> | [-> | ->]]];
    try (unfold try_except, tbind, stage, leave; rewrite Hv; cbn;
         eexists _, _; split; [reflexivity|];
         now apply run_invalid).
  cbn [truthy_opt].
  destruct (extract_message b) as [m|e] eqn:Hm.
  2:{ exfalso. unfold validate_request, extract_message in *.
      destruct (negb (truthy b)); [discriminate Hv|].
      destruct (py_get b (str "message") (PStr [])); cbn [bind] in *;
        [|discriminate Hv].
      destruct (py_strip a); cbn [bind] in *; discriminate. }
  destruct (run_chatbot R m) as [t|e] eqn:Hc.
  - unfold try_except, tbind, stage, quiet, leave. rewrite Hv. cbn [truthy_opt].
    rewrite Hm, Hc. cbn [app].
    eexists _, _; split; [reflexivity|]. now apply run_success.
  - unfold try_except, tbind, stage, quiet, leave. rewrite Hv. cbn [truthy_opt].
    rewrite Hm, Hc, handler_except_eq. unfold leave. rewrite <- app_assoc. cbn [app].
    eexists _, _; split; [reflexivity|]. now apply run_inference_raises.
Qed.

End Runs.

(** ** Reading a run *)

Section ReadingRuns.
Variable R : Runtime.

Lemma parse_body_steps (event : pyval) (tp : list step) (rb : result pyval)
    (x : step) :
  parse_body R event = (tp, rb) -> In x tp -> is_parse x = true.
Proof.
  intros Hp Hx.
  destruct (parse_body_trace R _ _ _ Hp) as [->|(d & s & _ & _ & _ & -> & _)].
  - destruct Hx.
  - destruct Hx as [<-|[]]; reflexivity.
Qed.

(** A step after the decoding of the body is not of the decoding. *)
Lemma in_after_parse (event : pyval) (tp rest : list step)
    (rb : result pyval) (x : step) :
  parse_body R event = (tp, rb) ->
  is_parse x = false ->
  In x (tp ++ rest) -> In x rest.
Proof.
  intros Hp Hx Hin. apply in_app_or in Hin as [Hin|Hin]; [|exact Hin].
  rewrite (parse_body_steps _ _ _ _ Hp Hin) in Hx; discriminate Hx.
Qed.

(** The validation step of a run: the body it was given is the decoded
    body, and its outcome is the validator's. *)
Lemma run_validate_inv (event : pyval) (tr : list step) (resp : response)
    (b : pyval) (r : result (option pystr)) :
  handler_run R event tr resp ->
  In (Validate b r) tr ->
  is_preflight event = false /\
  (exists tp, parse_body R event = (tp, Ok b)) /\
  r = validate_request b /\
  (forall e, r = Raise e -> resp = exn_response R e).
Proof.
  intros Hrun Hin.
  inversion Hrun as [Hd|Hpre|tp e Hpre Hp|tp b0 e Hpre Hp Hv
                    |tp b0 msg Hpre Hp Hv Ht|tp b0 m e Hpre Hp Hv Hm Hc
                    |tp b0 m t Hpre Hp Hv Hm Hc]; subst;
    try (destruct Hin as [Hin|[]]; discriminate Hin);
    apply (in_after_parse _ _ _ _ (Validate b r) Hp eq_refl) in Hin; cbn [In] in Hin;
    repeat (destruct Hin as [Hin|Hin]); try discriminate Hin;
    try contradiction;
    injection Hin as <- <-;
    (split; [assumption|split; [eauto|split; [now symmetry|]]]);
    intros e0 He0; try discriminate He0.
  now injection He0 as ->.
Qed.

(** The inference step of a run: validation passed on the decoded body,
    the message is the trimmed one, and the envelope follows the outcome. *)
Lemma run_inference_inv (event : pyval) (tr : list step) (resp : response)
    (m : pystr) (r : result pyval) :
  handler_run R event tr resp ->
  In (Inference m r) tr ->
  is_preflight event = false /\
  (exists tp b, parse_body R event = (tp, Ok b) /\
                validate_request b = Ok None /\
                extract_message b = Ok m) /\
  r = run_chatbot R m /\
  resp = match r with
         | Ok t => create_response R 200 (success_body R t)
         | Raise e => exn_response R e
         end.
Proof.
  intros Hrun Hin.
  inversion Hrun as [Hd|Hpre|tp e Hpre Hp|tp b0 e Hpre Hp Hv
                    |tp b0 msg Hpre Hp Hv Ht|tp b0 m0 e Hpre Hp Hv Hm Hc
                    |tp b0 m0 t Hpre Hp Hv Hm Hc]; subst;
    try (destruct Hin as [Hin|[]]; discriminate Hin);
    apply (in_after_parse _ _ _ _ (Inference m r) Hp eq_refl) in Hin; cbn [In] in Hin;
    repeat (destruct Hin as [Hin|Hin]); try discriminate Hin;
    try contradiction;
    injection Hin as <- <-;
    (split; [assumption|split; [eauto|split; [now symmetry|reflexivity]]]).
Qed.

(** A run that validated a body and found it valid went on to the
    inference stage with the message extracted from that body. *)
Lemma run_valid_then_inference (event : pyval) (tr : list step)
    (resp : response) (b : pyval) :
  handler_run R event tr resp ->
  In (Validate b (Ok None)) tr ->
  exists m, extract_message b = Ok m /\
            In (Inference m (run_chatbot R m)) tr.
Proof.
  intros Hrun Hin.
  inversion Hrun as [Hd|Hpre|tp e Hpre Hp|tp b0 e Hpre Hp Hv
                    |tp b0 msg Hpre Hp Hv Ht|tp b0 m0 e Hpre Hp Hv Hm Hc
                    |tp b0 m0 t Hpre Hp Hv Hm Hc]; subst;
    try (destruct Hin as [Hin|[]]; discriminate Hin);
    apply (in_after_parse _ _ _ _ (Validate b (Ok None)) Hp eq_refl) in Hin; cbn [In] in Hin;
    repeat (destruct Hin as [Hin|Hin]); try discriminate Hin;
    try contradiction;
    injection Hin as <-;
    exists m0; (split; [assumption|]);
    apply in_or_app; right; rewrite Hc; cbn [In]; auto.
Qed.

(** The trace of the handler is the trace of its run. *)
Lemma lambda_handler_is_run (event : pyval) (tr : list step)
    (r : result response) :
  lambda_handler_try R event = (tr, r) ->
  exists resp, r = Ok resp /\ handler_run R event tr resp.
Proof.
  intros H. destruct (lambda_handler_run R event) as (tr' & resp & Heq & Hrun).
  rewrite Heq in H. injection H as <- <-. eauto.
Qed.

End ReadingRuns.

(** ** The first statement and the rest *)

(** On an event [json.dumps] takes, the handler is its [try] statement. *)
Lemma lambda_handler_logged (R : Runtime) (event : pyval) :
  dumps_raises R event = None ->
  lambda_handler R event = lambda_handler_try R event.
Proof.
  intros H. unfold lambda_handler, log_event. rewrite H.
  exact (tbind_quiet_ok _ (fun _ => lambda_handler_try R event)).
Qed.

(** On an event [json.dumps] refuses, the handler raises what [json.dumps]
    raises, before its [try]. *)
Lemma lambda_handler_unlogged (R : Runtime) (event : pyval) (e : exn) :
  dumps_raises R event = Some e ->
  lambda_handler R event = ([], Raise e).
Proof. intros H. unfold lambda_handler, log_event. now rewrite H. Qed.

(** A run with a step in it, or with an envelope at its end, got past the
    first statement. *)
Lemma lambda_handler_traced (R : Runtime) (event : pyval) (x : step) :
  In x (fst (lambda_handler R event)) ->
  dumps_raises R event = None /\
  lambda_handler R event = lambda_handler_try R event.
Proof.
  destruct (dumps_raises R event) as [e|] eqn:Hd.
  - rewrite (lambda_handler_unlogged R event e Hd). intros [].
  - intros _. split; [reflexivity|now apply lambda_handler_logged].
Qed.

Lemma lambda_handler_returned (R : Runtime) (event : pyval) (resp : response) :
  snd (lambda_handler R event) = Ok resp ->
  dumps_raises R event = None /\
  lambda_handler R event = lambda_handler_try R event.
Proof.
  destruct (dumps_raises R event) as [e|] eqn:Hd.
  - rewrite (lambda_handler_unlogged R event e Hd). discriminate.
  - intros _. split; [reflexivity|now apply lambda_handler_logged].
Qed.

(** ** Validation (C1) *)

(** The rules of the Validator, case by case. *)
Lemma Validator_rules (empty : bool) (message : option pystr) :
  (empty = true -> Validator empty message = Invalid msg_body_required) /\
  (empty = false -> message = None ->
   Validator empty message = Invalid msg_message_required) /\
  (forall m, empty = false -> message = Some m -> strip m = [] ->
   Validator empty message = Invalid msg_message_required) /\
  (forall m, empty = false -> message = Some m ->
   (1000 < List.length (strip m))%nat ->
   Validator empty message = Invalid msg_too_long) /\
  (forall m, empty = false -> message = Some m ->
   (1 <= List.length (strip m) <= 1000)%nat ->
   Validator empty message = Valid (strip m)).
Proof.
  unfold Validator; repeat split.
  - now intros ->.
  - now intros -> ->.
  - intros m -> -> Hm. now rewrite Hm.
  - intros m -> -> Hm. cbn zeta.
    destruct (Nat.eqb_spec (List.length (strip m)) 0); [lia|].
    destruct (Nat.ltb_spec 1000 (List.length (strip m))); [reflexivity|lia].
  - intros m -> -> Hm. cbn zeta.
    destruct (Nat.eqb_spec (List.length (strip m)) 0); [lia|].
    destruct (Nat.ltb_spec 1000 (List.length (strip m))); [lia|reflexivity].
Qed.

(** C1.  On every body that is absent or a string-keyed mapping whose
    [message] field is absent or a text, [validate_request] gives the answer
    of the specification's Validator, whose rules are checked in order with
    the first failure winning: the error text when the Validator rejects the
    body, and [None] when it accepts it.  In the latter case the message the
    handler extracts is exactly the trimmed text, and every run of the
    handler that validated this body hands that text to the inference
    stage. *)
Theorem validate_request_implements_Validator :
  forall (b : pyval) (empty : bool) (message : option pystr),
    body_view b = Some (empty, message) ->
    match Validator empty message with
    | Invalid error => validate_request b = Ok (Some error)
    | Valid trimmed =>
        validate_request b = Ok None /\
        extract_message b = Ok trimmed /\
        forall (R : Runtime) (event : pyval),
          In (Validate b (Ok None)) (fst (lambda_handler R event)) ->
          In (Inference trimmed (run_chatbot R trimmed))
             (fst (lambda_handler R event))
    end.
Proof.
  intros b empty message Hview.
  assert (Hcode :
    match Validator empty message with
    | Invalid error => validate_request b = Ok (Some error)
    | Valid trimmed =>
        validate_request b = Ok None /\ extract_message b = Ok trimmed
    end).
  { destruct b as [| | | | | |d]; try discriminate Hview.
    - injection Hview as <- <-. reflexivity.
    - unfold body_view in Hview.
      unfold validate_request, extract_message, Validator.
      cbn [py_get].
      destruct (dict_get (str "message") d) as [v|] eqn:Hg.
      + destruct v; try discriminate Hview.
        injection Hview as <- <-.
        destruct d as [|kv d]; [discriminate Hg|].
        cbn [bind py_strip]. rewrite truthy_str. cbn [truthy negb].
        destruct (List.length (strip s) =? 0)%nat; cbn [negb]; [reflexivity|].
        destruct (1000 <? List.length (strip s))%nat; auto.
      + injection Hview as <- <-.
        destruct d as [|kv d]; reflexivity. }
  destruct (Validator empty message) as [error|trimmed]; [exact Hcode|].
  destruct Hcode as [Hv Hm]. repeat split; try assumption.
  intros R event Hin.
  destruct (lambda_handler_traced R event _ Hin) as [_ Heq]. rewrite Heq in *.
  destruct (lambda_handler_try R event) as [tr r] eqn:Hrun. cbn [fst] in *.
  apply lambda_handler_is_run in Hrun as (resp & -> & Hrun).
  destruct (run_valid_then_inference _ _ _ _ _ Hrun Hin) as (m & Hm' & Hinf).
  rewrite Hm in Hm'. now injection Hm' as <-.
Qed.

(** The message of the repository's test, with blanks around it: the
    validator accepts the body and the handler extracts the bare question. *)
Lemma validate_request_implements_Validator_witness :
  let padded := str "  What is photosynthesis? " ++ nl in
  let b := PDict [ (str "message", PStr padded) ] in
  body_view b = Some (false, Some padded) /\
  (validate_request b = Ok None /\
   extract_message b = Ok Mock.photosynthesis /\
   forall (R : Runtime) (event : pyval),
     In (Validate b (Ok None)) (fst (lambda_handler R event)) ->
     In (Inference Mock.photosynthesis (run_chatbot R Mock.photosynthesis))
        (fst (lambda_handler R event))).
Proof.
  intros padded b. split; [reflexivity|].
  exact (validate_request_implements_Validator b false (Some padded) eq_refl).
Defined.

(** The bound of 1000 characters is on the trimmed text and is inclusive:
    1000 characters pass, 1001 do not, and blanks around the text do not
    count. *)
Example validate_request_1000 :
  validate_request (PDict [ (str "message", PStr (repeat 97%N 1000)) ]) = Ok None.
Proof. vm_compute. reflexivity. Qed.

Example validate_request_1001 :
  validate_request (PDict [ (str "message", PStr (repeat 97%N 1001)) ])
  = Ok (Some msg_too_long).
Proof. vm_compute. reflexivity. Qed.

Example validate_request_1000_padded :
  validate_request
    (PDict [ (str "message", PStr (str "  " ++ repeat 97%N 1000 ++ nl)) ])
  = Ok None.
Proof. vm_compute. reflexivity. Qed.

Example validate_request_blank :
  validate_request (PDict [ (str "message", PStr (str "   " ++ nl)) ])
  = Ok (Some msg_message_required).
Proof. vm_compute. reflexivity. Qed.

Example validate_request_absent_body :
  validate_request PNone = Ok (Some msg_body_required) /\
  validate_request (PDict []) = Ok (Some msg_body_required).
Proof. split; reflexivity. Qed.

(** ** The shape of a run (C4, C5) *)

Lemma returns_app (t u : list step) : returns (t ++ u) = returns t ++ returns u.
Proof. unfold returns. now rewrite flat_map_app. Qed.

Lemma parse_body_returns (R : Runtime) (event : pyval) (tp : list step)
    (rb : result pyval) :
  parse_body R event = (tp, rb) -> returns tp = [].
Proof.
  intros Hp.
  destruct (parse_body_trace R _ _ _ Hp) as [->|(d & s & _ & _ & _ & -> & _)];
    reflexivity.
Qed.

(** A run ends with its one [return], and its envelope is the one
    [create_response] builds for the status of that [return]. *)
Lemma handler_run_shape (R : Runtime) (event : pyval) (tr : list step)
    (resp : response) :
  handler_run R event tr resp ->
  exists (br : branch) (b : pyval) (before : list step),
    tr = before ++ [Return br] /\
    returns before = [] /\
    resp = create_response R (status_of br) b.
Proof.
  intros Hrun.
  inversion Hrun as [Hd|Hpre|tp e Hpre Hp|tp b0 e Hpre Hp Hv
                    |tp b0 msg Hpre Hp Hv Ht|tp b0 m0 e Hpre Hp Hv Hm Hc
                    |tp b0 m0 t Hpre Hp Hv Hm Hc]; subst.
  - exists InternalError, (internal_error_body R), []. now repeat split.
  - exists Preflight, (PDict []), []. now repeat split.
  - exists (exn_branch e),
      (if is_JSONDecodeError e then error_body msg_invalid_json
       else internal_error_body R), tp.
    repeat split; [now apply parse_body_returns in Hp|].
    unfold exn_response, exn_branch. now destruct (is_JSONDecodeError e).
  - exists (exn_branch e),
      (if is_JSONDecodeError e then error_body msg_invalid_json
       else internal_error_body R), (tp ++ [Validate b0 (Raise e)]).
    rewrite <- app_assoc. repeat split.
    + rewrite returns_app. now rewrite (parse_body_returns _ _ _ _ Hp).
    + unfold exn_response, exn_branch. now destruct (is_JSONDecodeError e).
  - exists ValidationError, (error_body msg), (tp ++ [Validate b0 (Ok (Some msg))]).
    rewrite <- app_assoc. repeat split.
    rewrite returns_app. now rewrite (parse_body_returns _ _ _ _ Hp).
  - exists (exn_branch e),
      (if is_JSONDecodeError e then error_body msg_invalid_json
       else internal_error_body R),
      (tp ++ [Validate b0 (Ok None); Inference m0 (Raise e)]).
    rewrite <- app_assoc. repeat split.
    + rewrite returns_app. now rewrite (parse_body_returns _ _ _ _ Hp).
    + unfold exn_response, exn_branch. now destruct (is_JSONDecodeError e).
  - exists Success, (success_body R t),
      (tp ++ [Validate b0 (Ok None); Inference m0 (Ok t)]).
    rewrite <- app_assoc. repeat split.
    rewrite returns_app. now rewrite (parse_body_returns _ _ _ _ Hp).
Qed.

(** C4.  Every envelope the handler returns, whatever the event and the
    exit path, is one that [create_response] built, for the status of the
    [return] statement taken (200, 400 or 500) and some body mapping; the
    handler returns one on every event that its first statement can log.
    An envelope built by [create_response] has that status, the JSON text of
    that mapping as its body, and the fixed header mapping, the same for
    every status and body, in which [Access-Control-Allow-Origin] is the
    configured origin. *)
Theorem every_envelope_from_create_response :
  forall (R : Runtime) (event : pyval),
    (forall resp,
       snd (lambda_handler R event) = Ok resp ->
       exists (br : branch) (b : pyval),
         resp = create_response R (status_of br) b /\
         returns (fst (lambda_handler R event)) = [br]) /\
    (dumps_raises R event = None ->
     exists resp, snd (lambda_handler R event) = Ok resp) /\
    (forall (status : Z) (b : pyval),
       statusCode (create_response R status b) = status /\
       body (create_response R status b) = json_dumps R b /\
       headers (create_response R status b)
       = fixed_headers (Config.get_allowed_origins R)) /\
    header_get (str "Access-Control-Allow-Origin")
      (fixed_headers (Config.get_allowed_origins R))
    = Some (Config.get_allowed_origins R).
Proof.
  intros R event.
  destruct (lambda_handler_run R event) as (tr & resp0 & Heq & Hrun).
  destruct (handler_run_shape _ _ _ _ Hrun) as (br & b & before & -> & Hb & ->).
  split; [|split; [|split; [intros; repeat split|reflexivity]]].
  - intros resp Hresp.
    destruct (lambda_handler_returned R event resp Hresp) as [_ Hlog].
    rewrite Hlog in *. rewrite Heq in *. cbn [fst snd] in *.
    injection Hresp as <-. exists br, b. split; [reflexivity|].
    rewrite returns_app, Hb. reflexivity.
  - intros Hlog. rewrite (lambda_handler_logged R event Hlog), Heq.
    cbn [snd]. eauto.
Qed.

(** The question of the repository's test: the envelope is the one
    [create_response] builds for the [return] of the success. *)
Lemma every_envelope_from_create_response_witness :
  let R := Mock.runtime Mock.test_env (Ok (Mock.reply_with_text Mock.answer)) in
  let event := Mock.post (Mock.body_of_message Mock.photosynthesis) in
  let resp := create_response R 200 (success_body R (PStr Mock.answer)) in
  (snd (lambda_handler R event) = Ok resp /\ dumps_raises R event = None) /\
  exists (br : branch) (b : pyval),
    resp = create_response R (status_of br) b /\
    returns (fst (lambda_handler R event)) = [br].
Proof.
  intros R event resp. split; [split; reflexivity|].
  exact (proj1 (every_envelope_from_create_response R event) resp eq_refl).
Defined.

(** The [try] statement is total: on every event it returns an envelope
    and raises nothing.  Its run goes through exactly one of the five
    [return] statements, the last step of the trace, and the status of the
    envelope is the status of that branch: 200 for the preflight and for
    success, 400 for a validation error and for a parse error, 500 for the
    catch-all. *)
Lemma lambda_handler_try_one_branch :
  forall (R : Runtime) (event : pyval),
    exists (br : branch) (resp : response) (before : list step),
      lambda_handler_try R event = (before ++ [Return br], Ok resp) /\
      returns before = [] /\
      returns (fst (lambda_handler_try R event)) = [br] /\
      statusCode resp = status_of br.
Proof.
  intros R event.
  destruct (lambda_handler_run R event) as (tr & resp & Heq & Hrun).
  destruct (handler_run_shape _ _ _ _ Hrun) as (br & b & before & -> & Hb & ->).
  exists br, (create_response R (status_of br) b), before.
  rewrite Heq. cbn [fst]. repeat split; [assumption|].
  rewrite returns_app, Hb. reflexivity.
Qed.

(** C5.  The handler is not total.  Its first statement serialises the
    whole event for the log before the [try]; on an event that [json.dumps]
    refuses (here a request context with an int of 4301 digits) the
    exception leaves the handler: no [return] is taken and no envelope is
    returned, though the [try] statement alone answers this event 200. *)
Lemma lambda_handler_raises_before_try :
  let R := Mock.runtime Mock.test_env (Ok (Mock.reply_with_text Mock.answer)) in
  let refused :=
    ValueError "Exceeds the limit (4300 digits) for integer string conversion" in
  let event :=
    PDict [ (str "body", PStr (Mock.body_of_message Mock.photosynthesis));
            (str "requestContext",
             PDict [ (str "timeEpoch", PInt (10 ^ 4300)) ]) ] in
  dumps_raises R event = Some refused /\
  lambda_handler R event = ([], Raise refused) /\
  returns (fst (lambda_handler R event)) = [] /\
  snd (lambda_handler_try R event)
  = Ok (create_response R 200 (success_body R (PStr Mock.answer))).
Proof.
  intros R refused event.
  assert (Hd : dumps_raises R event = Some refused) by (vm_compute; reflexivity).
  split; [exact Hd|]. rewrite (lambda_handler_unlogged R event refused Hd).
  split; [reflexivity|split; [reflexivity|]].
  vm_compute. reflexivity.
Qed.

(** The five branches each fire on some event: none of them is dead. *)
Example every_branch_fires :
  let R := Mock.runtime Mock.test_env (Ok (Mock.reply_with_text Mock.answer)) in
  let failing := Mock.runtime Mock.test_env
                   (Raise (OtherException "ClientError" "throttled")) in
  let question := Mock.post (Mock.body_of_message Mock.photosynthesis) in
  returns (fst (lambda_handler R (Mock.options []))) = [Preflight] /\
  returns (fst (lambda_handler R (Mock.post (Mock.body_of_message []))))
  = [ValidationError] /\
  returns (fst (lambda_handler R question)) = [Success] /\
  returns (fst (lambda_handler R (Mock.post (str "invalid json")))) = [ParseError] /\
  returns (fst (lambda_handler failing question)) = [InternalError].
Proof. vm_compute. repeat split. Qed.

(** ** The routes of the handler (C7, C6, C9, C10) *)

(** A preflight request is a dict whose [httpMethod] is the str [OPTIONS]. *)
Lemma is_preflight_iff (event : pyval) :
  is_preflight event = true <->
  exists d, event = PDict d /\
            dict_get (str "httpMethod") d = Some (PStr (str "OPTIONS")).
Proof.
  unfold is_preflight. split.
  - destruct event as [| | | | | |d]; try discriminate. cbn [py_get].
    destruct (dict_get (str "httpMethod") d) as [method|] eqn:Hg; [|discriminate].
    intros H. apply py_eq_str_true in H. subst method. now exists d.
  - intros (d & -> & H). cbn [py_get]. now rewrite H.
Qed.

Lemma is_preflight_options (d : list (pystr * pyval)) :
  dict_get (str "httpMethod") d = Some (PStr (str "OPTIONS")) ->
  is_preflight (PDict d) = true.
Proof. unfold is_preflight; cbn [py_get]; now intros ->. Qed.

(** A str body that is not empty is decoded by [json.loads]. *)
Lemma parse_body_str (R : Runtime) (d : list (pystr * pyval)) (s : pystr) :
  dict_get (str "body") d = Some (PStr s) ->
  s <> [] ->
  parse_body R (PDict d) = ([JsonLoads s (json_loads R s)], json_loads R s).
Proof.
  intros Hb Hs. unfold parse_body. rewrite Hb.
  destruct s as [|c s]; [now destruct Hs|reflexivity].
Qed.

(** The handler on a decoded body that makes the validator raise. *)
Lemma lambda_handler_validation_raises (R : Runtime) (d : list (pystr * pyval))
    (tp : list step) (b : pyval) (e : exn) :
  is_preflight (PDict d) = false ->
  parse_body R (PDict d) = (tp, Ok b) ->
  validate_request b = Raise e ->
  lambda_handler_try R (PDict d) =
    (tp ++ [Validate b (Raise e); Return (exn_branch e)], Ok (exn_response R e)).
Proof.
  intros Hpre Hp Hv.
  rewrite (lambda_handler_post R (PDict d) d eq_refl Hpre), Hp.
  unfold try_except, tbind, stage. rewrite Hv, handler_except_eq.
  unfold leave. now rewrite <- app_assoc.
Qed.

(** The handler on a decoded body the validator rejects. *)
Lemma lambda_handler_invalid (R : Runtime) (d : list (pystr * pyval))
    (tp : list step) (b : pyval) (message : pystr) :
  is_preflight (PDict d) = false ->
  parse_body R (PDict d) = (tp, Ok b) ->
  validate_request b = Ok (Some message) ->
  truthy (PStr message) = true ->
  lambda_handler_try R (PDict d) =
    (tp ++ [Validate b (Ok (Some message)); Return ValidationError],
     Ok (create_response R 400 (error_body message))).
Proof.
  intros Hpre Hp Hv Ht.
  rewrite (lambda_handler_post R (PDict d) d eq_refl Hpre), Hp.
  unfold try_except, tbind, stage. rewrite Hv. cbn [truthy_opt]. rewrite Ht.
  reflexivity.
Qed.

(** X18.  An event whose [httpMethod] is [OPTIONS] is answered by the [try]
    statement at once, with status 200 and the JSON text of the empty
    mapping, whatever else the event holds; and so is it by the handler when
    its first statement can log the event.  The trace of the run is the
    preflight [return] alone, with no decoding of the body, no validation
    and no inference. *)
Theorem preflight_200_empty :
  forall (R : Runtime) (d : list (pystr * pyval)),
    dict_get (str "httpMethod") d = Some (PStr (str "OPTIONS")) ->
    lambda_handler_try R (PDict d)
    = ([Return Preflight], Ok (create_response R 200 (PDict []))) /\
    (dumps_raises R (PDict d) = None ->
     lambda_handler R (PDict d)
     = ([Return Preflight], Ok (create_response R 200 (PDict [])))) /\
    statusCode (create_response R 200 (PDict [])) = 200%Z /\
    body (create_response R 200 (PDict [])) = json_dumps R (PDict []).
Proof.
  intros R d H.
  assert (Htry : lambda_handler_try R (PDict d)
                 = ([Return Preflight], Ok (create_response R 200 (PDict [])))).
  { apply lambda_handler_preflight. now apply is_preflight_options. }
  split; [exact Htry|split; [|split; reflexivity]].
  intros Hlog. now rewrite (lambda_handler_logged R (PDict d) Hlog).
Qed.

(** A preflight request with a body that is no JSON: 200 and [{}]. *)
Lemma preflight_200_empty_witness :
  let R := Mock.runtime Mock.test_env (Ok (Mock.reply_with_text Mock.answer)) in
  let d := [ (str "httpMethod", PStr (str "OPTIONS"));
             (str "body", PStr (str "invalid json")) ] in
  (dict_get (str "httpMethod") d = Some (PStr (str "OPTIONS")) /\
   dumps_raises R (PDict d) = None) /\
  lambda_handler R (PDict d)
  = ([Return Preflight], Ok (create_response R 200 (PDict []))) /\
  body (create_response R 200 (PDict [])) = str "{}".
Proof.
  intros R d. split; [split; reflexivity|].
  destruct (preflight_200_empty R d eq_refl) as (_ & Hfull & _ & Hbody).
  split; [exact (Hfull eq_refl)|exact Hbody].
Defined.

(** C7.  An [OPTIONS] request is not answered 200 whatever it carries.
    The first statement of the handler serialises the whole event before
    the method is looked at; with a body that [json.dumps] refuses (here an
    already decoded body holding an int of 4301 digits) the handler raises
    and returns nothing, though the [try] statement alone answers 200 with
    [{}]. *)
Lemma preflight_raises_before_try :
  let R := Mock.runtime Mock.test_env (Ok (Mock.reply_with_text Mock.answer)) in
  let refused :=
    ValueError "Exceeds the limit (4300 digits) for integer string conversion" in
  let event :=
    PDict [ (str "httpMethod", PStr (str "OPTIONS"));
            (str "body", PDict [ (str "count", PInt (10 ^ 4300)) ]) ] in
  is_preflight event = true /\
  dumps_raises R event = Some refused /\
  lambda_handler R event = ([], Raise refused) /\
  lambda_handler_try R event
  = ([Return Preflight], Ok (create_response R 200 (PDict []))).
Proof.
  intros R refused event.
  assert (Hd : dumps_raises R event = Some refused) by (vm_compute; reflexivity).
  split; [reflexivity|split; [exact Hd|]].
  rewrite (lambda_handler_unlogged R event refused Hd).
  split; [reflexivity|].
  apply lambda_handler_preflight. reflexivity.
Qed.

(** C6, as the code has it.  When the event is not a preflight request and
    its body is a str that is not empty and on which [json.loads] raises
    [JSONDecodeError], the handler returns status 400 with the body
    [{"error": "Invalid JSON in request body"}]; the run is the failed
    decoding and the [return] of the parse error, with no validation and no
    inference.
    Stated of the [try] statement, on every event, and of the handler, on
    every event that its first statement can log. *)
Theorem malformed_body_400 :
  forall (R : Runtime) (d : list (pystr * pyval)) (s : pystr) (detail : string),
    is_preflight (PDict d) = false ->
    dict_get (str "body") d = Some (PStr s) ->
    s <> [] ->
    json_loads R s = Raise (JSONDecodeError detail) ->
    (lambda_handler_try R (PDict d)
    = ([JsonLoads s (Raise (JSONDecodeError detail)); Return ParseError],
       Ok (create_response R 400 (error_body msg_invalid_json))) /\
    (forall x, In x (fst (lambda_handler_try R (PDict d))) ->
               is_validate x = false /\ is_inference x = false)) /\
    (dumps_raises R (PDict d) = None ->
     lambda_handler R (PDict d)
     = ([JsonLoads s (Raise (JSONDecodeError detail)); Return ParseError],
        Ok (create_response R 400 (error_body msg_invalid_json))) /\
     (forall x, In x (fst (lambda_handler R (PDict d))) ->
                is_validate x = false /\ is_inference x = false)).
Proof.
  intros R d s detail Hpre Hb Hs Hj.
  assert (Htry :
      lambda_handler_try R (PDict d)
      = ([JsonLoads s (Raise (JSONDecodeError detail)); Return ParseError],
         Ok (create_response R 400 (error_body msg_invalid_json))) /\
      (forall x, In x (fst (lambda_handler_try R (PDict d))) ->
                 is_validate x = false /\ is_inference x = false)).
  {
    assert (Heq : lambda_handler_try R (PDict d)
      = ([JsonLoads s (Raise (JSONDecodeError detail)); Return ParseError],
         Ok (create_response R 400 (error_body msg_invalid_json)))).
    { rewrite (lambda_handler_post R (PDict d) d eq_refl Hpre).
      rewrite (parse_body_str R d s Hb Hs), Hj. reflexivity. }
    split; [exact Heq|].
    rewrite Heq. cbn [fst In]. intros x [<-|[<-|[]]]; split; reflexivity.
  }
  split; [exact Htry|].
  intros Hlog. rewrite (lambda_handler_logged R (PDict d) Hlog).
  exact Htry.
Qed.

(** The fourth event of the repository's test: the body [invalid json]. *)
Lemma malformed_body_400_witness :
  let R := Mock.runtime Mock.test_env (Ok (Mock.reply_with_text Mock.answer)) in
  let d := [ (str "body", PStr (str "invalid json")) ] in
  (is_preflight (PDict d) = false /\
   dict_get (str "body") d = Some (PStr (str "invalid json")) /\
   str "invalid json" <> [] /\
   json_loads R (str "invalid json") = Raise (JSONDecodeError "Expecting value")) /\
  (lambda_handler R (PDict d)
   = ([JsonLoads (str "invalid json") (Raise (JSONDecodeError "Expecting value"));
       Return ParseError],
      Ok (create_response R 400 (error_body msg_invalid_json))) /\
   (forall x, In x (fst (lambda_handler R (PDict d))) ->
              is_validate x = false /\ is_inference x = false)).
Proof.
  intros R d.
  split; [repeat split; try reflexivity; discriminate|].
  apply (malformed_body_400 R d (str "invalid json") "Expecting value");
    try reflexivity; discriminate.
Defined.

(** C6 as stated fails twice.  The empty str does not parse as JSON, yet an
    event with the empty str as its body is answered
    [Request body is required], after the validator has run; and a preflight
    request with a body that does not parse is answered 200. *)
Lemma malformed_body_400_counterexample :
  let R := Mock.runtime Mock.test_env (Ok (Mock.reply_with_text Mock.answer)) in
  (json_loads R [] = Raise (JSONDecodeError "Expecting value") /\
   lambda_handler R (Mock.post [])
   = ([Validate (PDict []) (Ok (Some msg_body_required)); Return ValidationError],
      Ok (create_response R 400 (error_body msg_body_required))) /\
   body (create_response R 400 (error_body msg_body_required))
   <> body (create_response R 400 (error_body msg_invalid_json))) /\
  (json_loads R (str "invalid json") = Raise (JSONDecodeError "Expecting value") /\
   snd (lambda_handler R (Mock.options (str "invalid json")))
   = Ok (create_response R 200 (PDict [])) /\
   statusCode (create_response R 200 (PDict [])) <> 400%Z).
Proof.
  intros R. repeat split; try reflexivity.
  - vm_compute. discriminate.
  - cbn. discriminate.
Qed.

(** A truthy value that is no dict has no method [get]. *)
Lemma validate_request_not_a_dict (v : pyval) :
  (forall d, v <> PDict d) ->
  truthy v = true ->
  validate_request v = Raise (AttributeError "object has no attribute 'get'").
Proof.
  intros Hv Ht. unfold validate_request. rewrite Ht. cbn [negb].
  destruct v; try reflexivity. now destruct (Hv d).
Qed.

(** A falsy value is taken for a missing body. *)
Lemma validate_request_falsy (v : pyval) :
  truthy v = false -> validate_request v = Ok (Some msg_body_required).
Proof. intros Ht. unfold validate_request. now rewrite Ht. Qed.

(** A message that is no str has no method [strip]. *)
Lemma validate_request_not_a_text (d : list (pystr * pyval)) (v : pyval) :
  dict_get (str "message") d = Some v ->
  (forall s, v <> PStr s) ->
  validate_request (PDict d)
  = Raise (AttributeError "object has no attribute 'strip'").
Proof.
  intros Hg Hv. unfold validate_request.
  destruct d as [|kv d]; [discriminate Hg|].
  cbn [truthy negb py_get]. rewrite Hg. cbn [bind].
  destruct v; try reflexivity. now destruct (Hv s).
Qed.

(** C9, as the code has it.  When the event is not a preflight request and
    its str body decodes to a value that is no object, the handler returns
    the 500 envelope if that value is truthy (a number other than zero,
    [true], a str or a list that is not empty): the validator raises on it.
    If the value is falsy ([null], [false], zero, the empty str, the empty
    list) the handler returns 400 with [Request body is required].
    Stated of the [try] statement, on every event, and of the handler, on
    every event that its first statement can log. *)
Theorem non_object_body_500_or_400 :
  forall (R : Runtime) (d : list (pystr * pyval)) (s : pystr) (v : pyval),
    is_preflight (PDict d) = false ->
    dict_get (str "body") d = Some (PStr s) ->
    s <> [] ->
    json_loads R s = Ok v ->
    (forall d', v <> PDict d') ->
    ((truthy v = true ->
     lambda_handler_try R (PDict d)
     = ([JsonLoads s (Ok v);
         Validate v (Raise (AttributeError "object has no attribute 'get'"));
         Return InternalError],
        Ok (create_response R 500 (internal_error_body R)))) /\
    (truthy v = false ->
     lambda_handler_try R (PDict d)
     = ([JsonLoads s (Ok v); Validate v (Ok (Some msg_body_required));
         Return ValidationError],
        Ok (create_response R 400 (error_body msg_body_required))))) /\
    (dumps_raises R (PDict d) = None ->
     (truthy v = true ->
      lambda_handler R (PDict d)
      = ([JsonLoads s (Ok v);
          Validate v (Raise (AttributeError "object has no attribute 'get'"));
          Return InternalError],
         Ok (create_response R 500 (internal_error_body R)))) /\
     (truthy v = false ->
      lambda_handler R (PDict d)
      = ([JsonLoads s (Ok v); Validate v (Ok (Some msg_body_required));
          Return ValidationError],
         Ok (create_response R 400 (error_body msg_body_required))))).
Proof.
  intros R d s v Hpre Hb Hs Hj Hv.
  assert (Htry :
      (truthy v = true ->
       lambda_handler_try R (PDict d)
       = ([JsonLoads s (Ok v);
           Validate v (Raise (AttributeError "object has no attribute 'get'"));
           Return InternalError],
          Ok (create_response R 500 (internal_error_body R)))) /\
      (truthy v = false ->
       lambda_handler_try R (PDict d)
       = ([JsonLoads s (Ok v); Validate v (Ok (Some msg_body_required));
           Return ValidationError],
          Ok (create_response R 400 (error_body msg_body_required))))).
  {
    pose proof (parse_body_str R d s Hb Hs) as Hp. rewrite Hj in Hp.
    split; intros Ht.
    - apply (lambda_handler_validation_raises R d _ v
               (AttributeError "object has no attribute 'get'") Hpre Hp).
      now apply validate_request_not_a_dict.
    - apply (lambda_handler_invalid R d _ v _ Hpre Hp).
      + now apply validate_request_falsy.
      + reflexivity.
  }
  split; [exact Htry|].
  intros Hlog. rewrite (lambda_handler_logged R (PDict d) Hlog).
  exact Htry.
Qed.

(** The body [42] is answered 500, the body [[]] is answered 400. *)
Lemma non_object_body_500_or_400_witness :
  let R := Mock.runtime Mock.test_env (Ok (Mock.reply_with_text Mock.answer)) in
  (lambda_handler R (Mock.post (str "42"))
   = ([JsonLoads (str "42") (Ok (PInt 42));
       Validate (PInt 42) (Raise (AttributeError "object has no attribute 'get'"));
       Return InternalError],
      Ok (create_response R 500 (internal_error_body R)))) /\
  (lambda_handler R (Mock.post (str "[]"))
   = ([JsonLoads (str "[]") (Ok (PList []));
       Validate (PList []) (Ok (Some msg_body_required));
       Return ValidationError],
      Ok (create_response R 400 (error_body msg_body_required)))).
Proof.
  intros R. split.
  - apply (non_object_body_500_or_400 R
             [ (str "body", PStr (str "42")) ] (str "42") (PInt 42));
      try reflexivity; discriminate.
  - apply (non_object_body_500_or_400 R
             [ (str "body", PStr (str "[]")) ] (str "[]") (PList []));
      try reflexivity; discriminate.
Defined.

(** C9 as stated fails on the bodies [[]] and [null]: they parse as JSON
    to values that are no objects, the event is not a preflight request, and
    the answer is 400 [Request body is required], not 500. *)
Lemma non_object_body_500_counterexample :
  let R := Mock.runtime Mock.test_env (Ok (Mock.reply_with_text Mock.answer)) in
  is_preflight (Mock.post (str "[]")) = false /\
  json_loads R (str "[]") = Ok (PList []) /\
  json_loads R (str "null") = Ok PNone /\
  snd (lambda_handler R (Mock.post (str "[]")))
  = Ok (create_response R 400 (error_body msg_body_required)) /\
  snd (lambda_handler R (Mock.post (str "null")))
  = Ok (create_response R 400 (error_body msg_body_required)) /\
  create_response R 400 (error_body msg_body_required)
  <> create_response R 500 (internal_error_body R).
Proof.
  intros R. repeat split; try reflexivity.
  intros H. apply (f_equal statusCode) in H. discriminate H.
Qed.

(** C10.  In every run of the handler that validates a body object whose
    [message] field is there and is no str (a number, a list, an object,
    [null]), whether the object came decoded from a str body or as the body
    itself, the validation raises [AttributeError] on [strip] and the handler
    returns the 500 envelope with [Internal server error], not a 400. *)
Theorem non_text_message_500 :
  forall (R : Runtime) (event : pyval) (d : list (pystr * pyval)) (v : pyval)
         (r : result (option pystr)),
    In (Validate (PDict d) r) (fst (lambda_handler R event)) ->
    dict_get (str "message") d = Some v ->
    (forall s, v <> PStr s) ->
    d <> [] /\
    r = Raise (AttributeError "object has no attribute 'strip'") /\
    snd (lambda_handler R event)
    = Ok (create_response R 500 (internal_error_body R)) /\
    statusCode (create_response R 500 (internal_error_body R)) = 500%Z.
Proof.
  intros R event d v r Hin Hg Hv.
  split; [intros ->; discriminate Hg|].
  destruct (lambda_handler_traced R event _ Hin) as [_ Hlog]. rewrite Hlog in *.
  destruct (lambda_handler_try R event) as [tr res] eqn:Heq. cbn [fst snd] in *.
  apply lambda_handler_is_run in Heq as (resp & -> & Hrun).
  destruct (run_validate_inv R _ _ _ _ _ Hrun Hin) as (_ & _ & Hr & Hresp).
  rewrite (validate_request_not_a_text d v Hg Hv) in Hr.
  repeat split; [exact Hr|].
  now rewrite (Hresp _ Hr).
Qed.

(** The body [{"message": 7}]: validation raises and the answer is 500. *)
Lemma non_text_message_500_witness :
  let R := Mock.runtime Mock.test_env (Ok (Mock.reply_with_text Mock.answer)) in
  let raw := str "{" ++ Mock.quoted (str "message") ++ str ": 7}" in
  let d := [ (str "message", PInt 7) ] in
  let r := Raise (AttributeError "object has no attribute 'strip'") in
  (In (Validate (PDict d) r) (fst (lambda_handler R (Mock.post raw))) /\
   dict_get (str "message") d = Some (PInt 7) /\
   (forall s, PInt 7 <> PStr s)) /\
  (d <> [] /\
   r = Raise (AttributeError "object has no attribute 'strip'") /\
   snd (lambda_handler R (Mock.post raw))
   = Ok (create_response R 500 (internal_error_body R)) /\
   statusCode (create_response R 500 (internal_error_body R)) = 500%Z).
Proof.
  intros R raw d r.
  assert (Hin : In (Validate (PDict d) r) (fst (lambda_handler R (Mock.post raw)))).
  { vm_compute. right. left. reflexivity. }
  split; [repeat split; [exact Hin|discriminate]|].
  apply (non_text_message_500 R (Mock.post raw) d (PInt 7) r Hin eq_refl).
  discriminate.
Defined.

(** ** Success (C2) *)

(** The message extracted from a body object with a text message. *)
Lemma extract_message_text (d : list (pystr * pyval)) (m : pystr) :
  dict_get (str "message") d = Some (PStr m) ->
  extract_message (PDict d) = Ok (strip m).
Proof. intros Hg. unfold extract_message. cbn [py_get]. now rewrite Hg. Qed.

(** C2.  Take an event whose body resolves to an object with a valid
    message (a text whose trimmed length is between 1 and 1000).  When the
    run of the handler on it holds an inference call that succeeded and
    returned the text [t], the call was made on the trimmed message and the
    handler returns status 200 with, as its body, the JSON text of
    [{"response": t, "environment": <environment tag>, "model_used": <model
    identifier>}], both as configured. *)
Theorem success_envelope :
  forall (R : Runtime) (event : pyval) (tp : list step)
         (d : list (pystr * pyval)) (m asked t : pystr),
    parse_body R event = (tp, Ok (PDict d)) ->
    dict_get (str "message") d = Some (PStr m) ->
    (1 <= List.length (strip m) <= 1000)%nat ->
    In (Inference asked (Ok (PStr t))) (fst (lambda_handler R event)) ->
    asked = strip m /\
    snd (lambda_handler R event)
    = Ok (create_response R 200 (success_body R (PStr t))) /\
    statusCode (create_response R 200 (success_body R (PStr t))) = 200%Z /\
    body (create_response R 200 (success_body R (PStr t)))
    = json_dumps R
        (PDict [ (str "response", PStr t);
                 (str "environment", PStr (Config.get_environment R));
                 (str "model_used", PStr (Config.get_bedrock_model_id R)) ]).
Proof.
  intros R event tp d m asked t Hp Hg Hlen Hin.
  destruct (lambda_handler_traced R event _ Hin) as [_ Hlog]. rewrite Hlog in *.
  destruct (lambda_handler_try R event) as [tr res] eqn:Heq. cbn [fst snd] in *.
  apply lambda_handler_is_run in Heq as (resp & -> & Hrun).
  destruct (run_inference_inv R _ _ _ _ _ Hrun Hin)
    as (_ & (tp' & b & Hp' & _ & Hm) & _ & ->).
  rewrite Hp in Hp'. injection Hp' as _ <-.
  rewrite (extract_message_text d m Hg) in Hm. injection Hm as <-.
  repeat split.
Qed.

(** The first scenario of the specification, in the environment of the
    repository's test: the question about photosynthesis, with an inference
    call stubbed to reply [Photosynthesis is...]. *)
Lemma success_envelope_witness :
  let R := Mock.runtime Mock.test_env (Ok (Mock.reply_with_text Mock.answer)) in
  let event := Mock.post (Mock.body_of_message Mock.photosynthesis) in
  let d := [ (str "message", PStr Mock.photosynthesis) ] in
  (parse_body R event
   = ([JsonLoads (Mock.body_of_message Mock.photosynthesis) (Ok (PDict d))],
      Ok (PDict d)) /\
   In (Inference Mock.photosynthesis (Ok (PStr Mock.answer)))
      (fst (lambda_handler R event))) /\
  (Mock.photosynthesis = strip Mock.photosynthesis /\
   snd (lambda_handler R event)
   = Ok (create_response R 200 (success_body R (PStr Mock.answer))) /\
   statusCode (create_response R 200 (success_body R (PStr Mock.answer))) = 200%Z /\
   body (create_response R 200 (success_body R (PStr Mock.answer)))
   = str "{" ++ Mock.quoted (str "response") ++ str ": "
       ++ Mock.quoted (str "Photosynthesis is...") ++ str ", "
       ++ Mock.quoted (str "environment") ++ str ": "
       ++ Mock.quoted (str "test") ++ str ", "
       ++ Mock.quoted (str "model_used") ++ str ": "
       ++ Mock.quoted (str "anthropic.claude-3-haiku-20240307-v1:0") ++ str "}").
Proof.
  intros R event d.
  assert (Hin : In (Inference Mock.photosynthesis (Ok (PStr Mock.answer)))
                  (fst (lambda_handler R event))).
  { vm_compute. right. right. left. reflexivity. }
  split; [split; [reflexivity|exact Hin]|].
  refine (success_envelope R event _ d Mock.photosynthesis Mock.photosynthesis
            Mock.answer eq_refl eq_refl _ Hin).
  change (List.length (strip Mock.photosynthesis)) with 23%nat. lia.
Defined.

(** ** The inference call (C3) *)

Section Inference.
Variable R : Runtime.
Variables (self : BedrockClient) (prompt : pystr).
Variables (max_tokens : Z) (temperature : float).
Hypothesis Hmax : Config.get_max_tokens R = Ok max_tokens.
Hypothesis Htemp : Config.get_temperature R = Ok temperature.

(** The one call to the model endpoint that [generate_response] makes. *)
Local Abbreviation call :=
  (invoke_model R (client self) (model_id self)
     (json_dumps R (request_payload max_tokens temperature prompt))).

Lemma generate_response_call :
  generate_response R self prompt =
    (raw <- call ;;
     response_body <- json_loads R raw ;;
     content <- py_getitem_str response_body (str "content") ;;
     nonempty <- content_nonempty content ;;
     if nonempty then
       first <- py_getitem_0 content ;;
       py_getitem_str first (str "text")
     else Ok (PStr fallback_text)).
Proof.
  unfold generate_response. rewrite Hmax, Htemp. cbn [bind].
  unfold try_reraise.
  now destruct (_ <- invoke_model R _ _ _ ;; _).
Qed.

Lemma generate_response_first_text (raw : pystr)
    (reply first : list (pystr * pyval)) (rest : list pyval) (t : pyval) :
  call = Ok raw ->
  json_loads R raw = Ok (PDict reply) ->
  dict_get (str "content") reply = Some (PList (PDict first :: rest)) ->
  dict_get (str "text") first = Some t ->
  generate_response R self prompt = Ok t.
Proof.
  intros Hc Hj Hcontent Htext.
  rewrite generate_response_call, Hc. cbn [bind]. rewrite Hj. cbn [bind].
  cbn [py_getitem_str]. rewrite Hcontent. cbn. now rewrite Htext.
Qed.

Lemma generate_response_empty (raw : pystr) (reply : list (pystr * pyval)) :
  call = Ok raw ->
  json_loads R raw = Ok (PDict reply) ->
  dict_get (str "content") reply = Some (PList []) ->
  generate_response R self prompt = Ok (PStr fallback_text).
Proof.
  intros Hc Hj Hcontent.
  rewrite generate_response_call, Hc. cbn [bind]. rewrite Hj. cbn [bind].
  cbn [py_getitem_str]. now rewrite Hcontent.
Qed.

Lemma generate_response_reraises (e : exn) :
  call = Raise e -> generate_response R self prompt = Raise e.
Proof. intros Hc. now rewrite generate_response_call, Hc. Qed.

End Inference.

(** The inference stage of the handler is [generate_response] on the prompt
    built from the message, once the chatbot is there. *)
Lemma run_chatbot_generate (R : Runtime) (bot : AcademicChatbot) (m : pystr) :
  AcademicChatbot_init R = Ok bot ->
  run_chatbot R m = generate_response R (bedrock_client bot) (create_prompt m).
Proof. intros Hb. unfold run_chatbot. now rewrite Hb. Qed.

(** X17.  With the token limit and the temperature
    configured, [generate_response] makes one call to the model endpoint.
    When the call succeeds and the content list of the reply is not empty,
    the result is the text of its first element; when the call succeeds and
    the content list is empty, the result is the fixed apology, and a run of
    the handler whose inference stage returned it ends with status 200; when
    the call raises an error, [generate_response] raises that same error and
    gives no fallback text, and a run of the handler whose inference stage
    raised an error that is no JSON decode error ends with the 500 envelope
    [{"error": "Internal server error", "environment": <tag>}]. *)
Theorem generate_response_soft_fallback_hard_failure :
  forall (R : Runtime) (self : BedrockClient) (prompt : pystr)
         (max_tokens : Z) (temperature : float),
    Config.get_max_tokens R = Ok max_tokens ->
    Config.get_temperature R = Ok temperature ->
    let call :=
      invoke_model R (client self) (model_id self)
        (json_dumps R (request_payload max_tokens temperature prompt)) in
    (forall raw reply first rest t,
       call = Ok raw ->
       json_loads R raw = Ok (PDict reply) ->
       dict_get (str "content") reply = Some (PList (PDict first :: rest)) ->
       dict_get (str "text") first = Some t ->
       generate_response R self prompt = Ok t) /\
    (forall raw reply,
       call = Ok raw ->
       json_loads R raw = Ok (PDict reply) ->
       dict_get (str "content") reply = Some (PList []) ->
       generate_response R self prompt = Ok (PStr fallback_text)) /\
    (forall e, call = Raise e -> generate_response R self prompt = Raise e) /\
    (forall bot m,
       AcademicChatbot_init R = Ok bot ->
       run_chatbot R m
       = generate_response R (bedrock_client bot) (create_prompt m)) /\
    (forall event m,
       In (Inference m (Ok (PStr fallback_text))) (fst (lambda_handler R event)) ->
       snd (lambda_handler R event)
       = Ok (create_response R 200 (success_body R (PStr fallback_text)))) /\
    (forall event m e,
       In (Inference m (Raise e)) (fst (lambda_handler R event)) ->
       is_JSONDecodeError e = false ->
       snd (lambda_handler R event)
       = Ok (create_response R 500 (internal_error_body R))).
Proof.
  intros R self prompt max_tokens temperature Hmax Htemp call.
  split; [|split; [|split; [|split; [|split]]]].
  - intros raw reply first rest t.
    now apply (generate_response_first_text R self prompt max_tokens temperature).
  - intros raw reply.
    now apply (generate_response_empty R self prompt max_tokens temperature).
  - intros e.
    now apply (generate_response_reraises R self prompt max_tokens temperature).
  - intros bot m. apply run_chatbot_generate.
  - intros event m Hin.
    destruct (lambda_handler_traced R event _ Hin) as [_ Hlog]. rewrite Hlog in *.
    destruct (lambda_handler_try R event) as [tr res] eqn:Heq. cbn [fst snd] in *.
    apply lambda_handler_is_run in Heq as (resp & -> & Hrun).
    now destruct (run_inference_inv R _ _ _ _ _ Hrun Hin) as (_ & _ & _ & ->).
  - intros event m e Hin He.
    destruct (lambda_handler_traced R event _ Hin) as [_ Hlog]. rewrite Hlog in *.
    destruct (lambda_handler_try R event) as [tr res] eqn:Heq. cbn [fst snd] in *.
    apply lambda_handler_is_run in Heq as (resp & -> & Hrun).
    destruct (run_inference_inv R _ _ _ _ _ Hrun Hin) as (_ & _ & _ & ->).
    unfold exn_response. now rewrite He.
Qed.

(** The scenarios of the specification with a stubbed inference call: a
    reply with a text, a reply with an empty content list (scenario 4), and
    a call that raises (scenario 3). *)
Lemma generate_response_soft_fallback_hard_failure_witness :
  let answering := Mock.runtime Mock.test_env (Ok (Mock.reply_with_text Mock.answer)) in
  let silent := Mock.runtime Mock.test_env (Ok Mock.reply_empty) in
  let throttled := OtherException "ClientError" "ThrottlingException" in
  let failing := Mock.runtime Mock.test_env (Raise throttled) in
  let self :=
    {| region := str "us-east-1";
       client := {| service_name := str "bedrock-runtime";
                    region_name := str "us-east-1" |};
       model_id := default_model_id |} in
  let prompt := create_prompt Mock.photosynthesis in
  let question := Mock.post (Mock.body_of_message Mock.photosynthesis) in
  (Config.get_max_tokens answering = Ok 1000%Z /\
   Config.get_temperature answering = Ok 0.5%float) /\
  generate_response answering self prompt = Ok (PStr Mock.answer) /\
  generate_response silent self prompt = Ok (PStr fallback_text) /\
  generate_response failing self prompt = Raise throttled /\
  snd (lambda_handler silent question)
  = Ok (create_response silent 200 (success_body silent (PStr fallback_text))) /\
  snd (lambda_handler failing question)
  = Ok (create_response failing 500 (internal_error_body failing)).
Proof.
  intros answering silent throttled failing self prompt question.
  split; [split; reflexivity|].
  destruct (generate_response_soft_fallback_hard_failure
              answering self prompt 1000%Z 0.5%float eq_refl eq_refl)
    as (Hfirst & _).
  destruct (generate_response_soft_fallback_hard_failure
              silent self prompt 1000%Z 0.5%float eq_refl eq_refl)
    as (_ & Hempty & _ & _ & Hsoft & _).
  destruct (generate_response_soft_fallback_hard_failure
              failing self prompt 1000%Z 0.5%float eq_refl eq_refl)
    as (_ & _ & Hraise & _ & _ & Hhard).
  split; [|split; [|split; [|split]]].
  - apply (Hfirst (Mock.reply_with_text Mock.answer)
             [ (str "content",
                PList [ PDict [ (str "type", PStr (str "text"));
                                (str "text", PStr Mock.answer) ] ]) ]
             [ (str "type", PStr (str "text")); (str "text", PStr Mock.answer) ]
             []); reflexivity.
  - apply (Hempty Mock.reply_empty [ (str "content", PList []) ]); reflexivity.
  - apply Hraise. reflexivity.
  - apply (Hsoft question Mock.photosynthesis).
    vm_compute. right. right. left. reflexivity.
  - apply (Hhard question Mock.photosynthesis throttled); [|reflexivity].
    vm_compute. right. right. left. reflexivity.
Defined.

(** C3 as stated fails when the error the call raises is a
    [json.JSONDecodeError]: [generate_response] raises it again unchanged,
    and the handler's clause for [JSONDecodeError] turns it into status 400
    with [Invalid JSON in request body], not into the 500 envelope. *)
Lemma generate_response_hard_failure_counterexample :
  let broken := JSONDecodeError "Expecting value" in
  let R := Mock.runtime Mock.test_env (Raise broken) in
  let self :=
    {| region := str "us-east-1";
       client := {| service_name := str "bedrock-runtime";
                    region_name := str "us-east-1" |};
       model_id := default_model_id |} in
  let question := Mock.post (Mock.body_of_message Mock.photosynthesis) in
  (forall c model payload, invoke_model R c model payload = Raise broken) /\
  generate_response R self (create_prompt Mock.photosynthesis) = Raise broken /\
  lambda_handler R question
  = ([JsonLoads (Mock.body_of_message Mock.photosynthesis)
        (Ok (PDict [ (str "message", PStr Mock.photosynthesis) ]));
      Validate (PDict [ (str "message", PStr Mock.photosynthesis) ]) (Ok None);
      Inference Mock.photosynthesis (Raise broken);
      Return ParseError],
     Ok (create_response R 400 (error_body msg_invalid_json))) /\
  create_response R 400 (error_body msg_invalid_json)
  <> create_response R 500 (internal_error_body R).
Proof.
  intros broken R self question. repeat split; try reflexivity.
  intros H. apply (f_equal statusCode) in H. discriminate H.
Qed.

(** ** Configuration (C8) *)





(** * Further properties of the module *)

(** ** Trimming *)

Lemma lstrip_blanks (ws s : pystr) :
  forallb isspace ws = true -> lstrip (ws ++ s) = lstrip s.
Proof.
  induction ws as [|c ws IH]; cbn [app forallb lstrip]; [reflexivity|].
  intros H. apply andb_true_iff in H as [Hc Hws]. rewrite Hc. now apply IH.
Qed.

(** [lstrip] removes a run of blanks and nothing else. *)
Lemma lstrip_split (s : pystr) :
  exists ws, forallb isspace ws = true /\ s = ws ++ lstrip s.
Proof.
  induction s as [|c s (ws & Hws & Heq)]; [now exists []|].
  cbn [lstrip]. destruct (isspace c) eqn:Hc.
  - exists (c :: ws). cbn [forallb app]. rewrite Hc, Hws. split; [reflexivity|].
    now rewrite <- Heq.
  - now exists [].
Qed.

Lemma lstrip_starts_clean (s : pystr) : starts_clean (lstrip s).
Proof.
  induction s as [|c s IH]; cbn [lstrip]; [exact I|].
  destruct (isspace c) eqn:Hc; [exact IH|exact Hc].
Qed.

Lemma lstrip_clean (s : pystr) : starts_clean s -> lstrip s = s.
Proof. destruct s as [|c s]; cbn; [reflexivity|now intros ->]. Qed.

(** Blanks after a text stay where they are when the head is trimmed,
    unless the text is all blanks. *)
Lemma lstrip_app (s ws : pystr) :
  lstrip (s ++ ws) = lstrip s ++ ws \/
  (lstrip s = [] /\ lstrip (s ++ ws) = lstrip ws).
Proof.
  induction s as [|c s IH]; cbn [app lstrip]; [now right|].
  destruct (isspace c); [exact IH|now left].
Qed.

Lemma forallb_rev {A : Type} (f : A -> bool) (l : list A) :
  forallb f (rev l) = forallb f l.
Proof.
  induction l as [|x l IH]; [reflexivity|].
  cbn [rev forallb]. rewrite forallb_app, IH. cbn [forallb].
  rewrite andb_true_r. apply andb_comm.
Qed.

Lemma lstrip_all_blanks (ws : pystr) :
  forallb isspace ws = true -> lstrip ws = [].
Proof.
  intros H. rewrite <- (app_nil_r ws). now rewrite (lstrip_blanks ws [] H).
Qed.

Lemma rstrip_blanks (s ws : pystr) :
  forallb isspace ws = true -> rstrip (s ++ ws) = rstrip s.
Proof.
  intros H. unfold rstrip. rewrite rev_app_distr.
  rewrite lstrip_blanks; [reflexivity|]. now rewrite forallb_rev.
Qed.

(** Blanks around a text do not change what [strip] makes of it. *)
Lemma strip_padded (before m after : pystr) :
  forallb isspace before = true ->
  forallb isspace after = true ->
  strip (before ++ m ++ after) = strip m.
Proof.
  intros Hb Ha. unfold strip. rewrite (lstrip_blanks before _ Hb).
  destruct (lstrip_app m after) as [->|[Hm ->]].
  - now apply rstrip_blanks.
  - rewrite Hm, (lstrip_all_blanks after Ha). reflexivity.
Qed.

(** [rstrip] removes a run of blanks at the end and nothing else. *)
Lemma rstrip_split (s : pystr) :
  exists ws, forallb isspace ws = true /\ s = rstrip s ++ ws.
Proof.
  destruct (lstrip_split (rev s)) as (ws & Hws & Heq).
  exists (rev ws). rewrite forallb_rev. split; [exact Hws|].
  unfold rstrip. rewrite <- rev_app_distr, <- Heq. now rewrite rev_involutive.
Qed.

Lemma rstrip_starts_clean (s : pystr) : starts_clean s -> starts_clean (rstrip s).
Proof.
  intros Hs. destruct (rstrip_split s) as (ws & _ & Heq).
  destruct (rstrip s) as [|c t]; [exact I|].
  rewrite Heq in Hs. exact Hs.
Qed.

Lemma strip_starts_clean (s : pystr) : starts_clean (strip s).
Proof. apply rstrip_starts_clean, lstrip_starts_clean. Qed.

Lemma strip_ends_clean (s : pystr) : starts_clean (rev (strip s)).
Proof.
  unfold strip, rstrip. rewrite rev_involutive. apply lstrip_starts_clean.
Qed.

(** A trimmed text is left as it is by a second trimming. *)
Lemma strip_idempotent (s : pystr) : strip (strip s) = strip s.
Proof.
  unfold strip at 1. rewrite (lstrip_clean _ (strip_starts_clean s)).
  unfold rstrip. rewrite (lstrip_clean _ (strip_ends_clean s)).
  apply rev_involutive.
Qed.

Lemma strip_length (s : pystr) : (List.length (strip s) <= List.length s)%nat.
Proof.
  unfold strip.
  destruct (lstrip_split s) as (ws & _ & Hs).
  destruct (rstrip_split (lstrip s)) as (ws' & _ & Hl).
  rewrite Hs at 2. rewrite Hl at 2. rewrite !length_app. lia.
Qed.

(** ** More on validate_request *)

(** The validator on a body object: what it does is decided by the
    [message] field alone. *)
Lemma validate_request_dict (d : list (pystr * pyval)) :
  d <> [] ->
  validate_request (PDict d) =
    match dict_get (str "message") d with
    | None => Ok (Some msg_message_required)
    | Some (PStr m) =>
        if (List.length (strip m) =? 0)%nat then Ok (Some msg_message_required)
        else if (1000 <? List.length (strip m))%nat then Ok (Some msg_too_long)
        else Ok None
    | Some _ => Raise (AttributeError "object has no attribute 'strip'")
    end.
Proof.
  intros Hd. destruct d as [|kv d]; [now destruct Hd|].
  unfold validate_request.
  change (truthy (PDict (kv :: d))) with true. cbn [negb py_get].
  destruct (dict_get (str "message") (kv :: d)) as [v|]; [|reflexivity].
  destruct v; try reflexivity.
  cbn [bind py_strip]. rewrite truthy_str.
  now destruct (List.length (strip s) =? 0)%nat.
Qed.

(** X1.  Blanks before and after the message count for nothing: a body
    whose message is a text with whitespace around it is validated as the
    body with the bare text is, and the message extracted from it is the
    same. *)
Theorem validation_ignores_padding :
  forall (d d' : list (pystr * pyval)) (before m after : pystr),
    forallb isspace before = true ->
    forallb isspace after = true ->
    dict_get (str "message") d = Some (PStr (before ++ m ++ after)) ->
    dict_get (str "message") d' = Some (PStr m) ->
    validate_request (PDict d) = validate_request (PDict d') /\
    extract_message (PDict d) = extract_message (PDict d').
Proof.
  intros d d' before m after Hb Ha Hd Hd'.
  assert (Hn : d <> []) by (intros ->; discriminate Hd).
  assert (Hn' : d' <> []) by (intros ->; discriminate Hd').
  rewrite (validate_request_dict d Hn), (validate_request_dict d' Hn').
  rewrite (extract_message_text d _ Hd), (extract_message_text d' _ Hd').
  rewrite Hd, Hd', (strip_padded before m after Hb Ha). now split.
Qed.

Lemma validation_ignores_padding_witness :
  let padded := str "  " ++ nl ++ Mock.photosynthesis ++ str " " ++ nl in
  let d := [ (str "user", PStr (str "ada")); (str "message", PStr padded) ] in
  let d' := [ (str "message", PStr Mock.photosynthesis) ] in
  (forallb isspace (str "  " ++ nl) = true /\
   forallb isspace (str " " ++ nl) = true) /\
  validate_request (PDict d) = validate_request (PDict d') /\
  extract_message (PDict d) = extract_message (PDict d').
Proof.
  intros padded d d'. split; [split; reflexivity|].
  apply (validation_ignores_padding d d' (str "  " ++ nl) Mock.photosynthesis
           (str " " ++ nl)); reflexivity.
Defined.

(** X2.  The validator reads no field but [message]: two body objects,
    neither empty, with the same [message] field (or both without one) get
    the same answer, whatever other fields they hold. *)
Theorem validation_reads_message_only :
  forall (d d' : list (pystr * pyval)),
    d <> [] -> d' <> [] ->
    dict_get (str "message") d = dict_get (str "message") d' ->
    validate_request (PDict d) = validate_request (PDict d').
Proof.
  intros d d' Hd Hd' Heq.
  rewrite (validate_request_dict d Hd), (validate_request_dict d' Hd').
  now rewrite Heq.
Qed.

Lemma validation_reads_message_only_witness :
  let d := [ (str "session", PInt 7); (str "message", PStr (str "hi"));
             (str "lang", PStr (str "en")) ] in
  let d' := [ (str "message", PStr (str "hi")) ] in
  (d <> [] /\ d' <> [] /\
   dict_get (str "message") d = dict_get (str "message") d') /\
  validate_request (PDict d) = validate_request (PDict d').
Proof.
  intros d d'. split; [repeat split; discriminate|].
  apply (validation_reads_message_only d d'); try discriminate. reflexivity.
Defined.

(** X3.  The validator raises on a body exactly when the body is truthy
    and is no dict, or is a dict whose [message] field is there and is no
    str; what it raises is an [AttributeError], never a [JSONDecodeError],
    so the handler answers it 500 and not 400. *)
Theorem validation_raises_exactly :
  forall (b : pyval),
    ((exists e, validate_request b = Raise e) <->
     truthy b = true /\
     ((forall d, b <> PDict d) \/
      exists d v, b = PDict d /\ dict_get (str "message") d = Some v /\
                  forall s, v <> PStr s)) /\
    (forall e, validate_request b = Raise e ->
               (exists detail, e = AttributeError detail) /\
               is_JSONDecodeError e = false /\
               forall R, exn_response R e
                         = create_response R 500 (internal_error_body R)).
Proof.
  intros b.
  assert (Hkind : forall e, validate_request b = Raise e ->
                            exists detail, e = AttributeError detail).
  { intros e He. destruct (validate_request_raises b e He) as [Ht Hc].
    destruct Hc as [Hnd|(d & v & -> & Hg & Hv)].
    - rewrite (validate_request_not_a_dict b Hnd Ht) in He.
      injection He as <-. eauto.
    - rewrite (validate_request_not_a_text d v Hg Hv) in He.
      injection He as <-. eauto. }
  split; [split|].
  - intros (e & He). exact (validate_request_raises b e He).
  - intros (Ht & [Hnd|(d & v & -> & Hg & Hv)]).
    + eexists. now apply validate_request_not_a_dict.
    + eexists. now apply (validate_request_not_a_text d v).
  - intros e He. destruct (Hkind e He) as (detail & ->).
    repeat split. eauto.
Qed.

(** ** More on lambda_handler *)

(** Once the body is decoded, the envelope is a function of the decoded
    body: nothing else of the event is looked at. *)
Lemma lambda_handler_answer (R : Runtime) (d : list (pystr * pyval))
    (tp : list step) (b : pyval) :
  is_preflight (PDict d) = false ->
  parse_body R (PDict d) = (tp, Ok b) ->
  snd (lambda_handler_try R (PDict d)) = Ok (answer R b).
Proof.
  intros Hpre Hp.
  destruct (lambda_handler_run R (PDict d)) as (tr & resp & Heq & Hrun).
  rewrite Heq. cbn [snd]. f_equal. unfold answer.
  inversion Hrun as [Hd|Hpre'|tp' e Hpre' Hp'|tp' b0 e Hpre' Hp' Hv
                    |tp' b0 msg Hpre' Hp' Hv Ht|tp' b0 m0 e Hpre' Hp' Hv Hm Hc
                    |tp' b0 m0 t Hpre' Hp' Hv Hm Hc]; subst;
    try (now destruct (Hd d)); try congruence;
    rewrite Hp in Hp'; injection Hp' as <- <-;
    rewrite Hv; try rewrite Hm; try rewrite Hc; reflexivity.
Qed.

(** X4.  Past its first statement, which logs the whole event, the
    handler looks at an event for two things only: whether its
    [httpMethod] is [OPTIONS], and its [body].  Two events that
    [json.dumps] takes, that are both a preflight or both not, and that
    carry the same [body] get the same run and the same envelope, whatever
    their other fields (headers, path, request context) and whatever the
    method of a request that is no preflight ([POST], [GET], [DELETE], none
    at all). *)
Theorem handler_reads_method_and_body_only :
  forall (R : Runtime) (d d' : list (pystr * pyval)),
    dumps_raises R (PDict d) = None ->
    dumps_raises R (PDict d') = None ->
    is_preflight (PDict d) = is_preflight (PDict d') ->
    dict_get (str "body") d = dict_get (str "body") d' ->
    lambda_handler R (PDict d) = lambda_handler R (PDict d').
Proof.
  intros R d d' Hlog Hlog' Hm Hb.
  rewrite (lambda_handler_logged R _ Hlog), (lambda_handler_logged R _ Hlog').
  destruct (is_preflight (PDict d')) eqn:Hpre'.
  - rewrite (lambda_handler_preflight R _ Hm).
    now rewrite (lambda_handler_preflight R _ Hpre').
  - rewrite (lambda_handler_post R (PDict d) d eq_refl Hm).
    rewrite (lambda_handler_post R (PDict d') d' eq_refl Hpre').
    unfold parse_body. now rewrite Hb.
Qed.

Lemma handler_reads_method_and_body_only_witness :
  let R := Mock.runtime Mock.test_env (Ok (Mock.reply_with_text Mock.answer)) in
  let d := [ (str "body", PStr (Mock.body_of_message Mock.photosynthesis)) ] in
  let d' := [ (str "httpMethod", PStr (str "DELETE"));
              (str "path", PStr (str "/chat"));
              (str "headers", PDict [ (str "Origin", PStr (str "https://example.org")) ]);
              (str "body", PStr (Mock.body_of_message Mock.photosynthesis));
              (str "isBase64Encoded", PBool false) ] in
  (dumps_raises R (PDict d) = None /\ dumps_raises R (PDict d') = None /\
   is_preflight (PDict d) = is_preflight (PDict d') /\
   dict_get (str "body") d = dict_get (str "body") d') /\
  lambda_handler R (PDict d) = lambda_handler R (PDict d').
Proof.
  intros R d d'. split; [split; [|split; [|split]]; reflexivity|].
  exact (handler_reads_method_and_body_only R d d' eq_refl eq_refl eq_refl eq_refl).
Defined.

(** X5.  A request that is no preflight and has no body to speak of (no
    [body] key, or a [body] that is [None], the empty str, an empty dict or
    list, zero or [False]) is answered 400 with
    [Request body is required]: [json.loads] is not called and the chatbot
    is not built.
    Stated of the [try] statement, on every event, and of the handler, on
    every event that its first statement can log. *)
Theorem missing_body_400 :
  forall (R : Runtime) (d : list (pystr * pyval)),
    is_preflight (PDict d) = false ->
    (dict_get (str "body") d = None \/
     exists eb, dict_get (str "body") d = Some eb /\ truthy eb = false) ->
    (lambda_handler_try R (PDict d)
    = ([Validate (PDict []) (Ok (Some msg_body_required)); Return ValidationError],
       Ok (create_response R 400 (error_body msg_body_required)))) /\
    (dumps_raises R (PDict d) = None ->
     lambda_handler R (PDict d)
     = ([Validate (PDict []) (Ok (Some msg_body_required)); Return ValidationError],
        Ok (create_response R 400 (error_body msg_body_required)))).
Proof.
  intros R d Hpre Hb.
  assert (Htry :
      lambda_handler_try R (PDict d)
      = ([Validate (PDict []) (Ok (Some msg_body_required)); Return ValidationError],
         Ok (create_response R 400 (error_body msg_body_required)))).
  {
    assert (Hp : parse_body R (PDict d) = ([], Ok (PDict []))).
    { unfold parse_body. destruct Hb as [->|(eb & -> & ->)]; reflexivity. }
    exact (lambda_handler_invalid R d [] (PDict []) msg_body_required Hpre Hp
             eq_refl eq_refl).
  }
  split; [exact Htry|].
  intros Hlog. rewrite (lambda_handler_logged R (PDict d) Hlog).
  exact Htry.
Qed.

Lemma missing_body_400_witness :
  let R := Mock.runtime Mock.test_env (Ok (Mock.reply_with_text Mock.answer)) in
  let no_key := [ (str "httpMethod", PStr (str "POST")) ] in
  let null_body := [ (str "httpMethod", PStr (str "POST")); (str "body", PNone) ] in
  (is_preflight (PDict no_key) = false /\ dict_get (str "body") no_key = None /\
   is_preflight (PDict null_body) = false /\
   dict_get (str "body") null_body = Some PNone /\ truthy PNone = false) /\
  lambda_handler R (PDict no_key)
  = ([Validate (PDict []) (Ok (Some msg_body_required)); Return ValidationError],
     Ok (create_response R 400 (error_body msg_body_required))) /\
  lambda_handler R (PDict null_body)
  = ([Validate (PDict []) (Ok (Some msg_body_required)); Return ValidationError],
     Ok (create_response R 400 (error_body msg_body_required))).
Proof.
  intros R no_key null_body.
  split; [repeat split; reflexivity|split].
  - exact (proj2 (missing_body_400 R no_key eq_refl (or_introl eq_refl)) eq_refl).
  - exact (proj2 (missing_body_400 R null_body eq_refl
                    (or_intror (ex_intro _ PNone (conj eq_refl eq_refl))))
                 eq_refl).
Defined.

(** X6.  A body given as a JSON text and the same body given already
    decoded are answered alike: when [json.loads] turns the str body of one
    request into a value that is no str, and another request carries that
    value as its body, the two envelopes are equal.
    Stated of the [try] statement, on every event, and of the handler, on
    every event that its first statement can log. *)
Theorem decoded_body_same_answer :
  forall (R : Runtime) (d d' : list (pystr * pyval)) (s : pystr) (v : pyval),
    is_preflight (PDict d) = false ->
    is_preflight (PDict d') = false ->
    dict_get (str "body") d = Some (PStr s) ->
    s <> [] ->
    json_loads R s = Ok v ->
    dict_get (str "body") d' = Some v ->
    (forall t, v <> PStr t) ->
    (snd (lambda_handler_try R (PDict d)) = snd (lambda_handler_try R (PDict d'))) /\
    (dumps_raises R (PDict d) = None ->
     dumps_raises R (PDict d') = None ->
     snd (lambda_handler R (PDict d)) = snd (lambda_handler R (PDict d'))).
Proof.
  intros R d d' s v Hpre Hpre' Hb Hs Hj Hb' Hv.
  assert (Htry :
      snd (lambda_handler_try R (PDict d)) = snd (lambda_handler_try R (PDict d'))).
  {
    pose proof (parse_body_str R d s Hb Hs) as Hp. rewrite Hj in Hp.
    rewrite (lambda_handler_answer R d _ v Hpre Hp).
    destruct (truthy v) eqn:Ht.
    - assert (Hp' : parse_body R (PDict d') = ([], Ok v)).
      { unfold parse_body. rewrite Hb', Ht. destruct v; try reflexivity.
        now destruct (Hv s0). }
      now rewrite (lambda_handler_answer R d' _ v Hpre' Hp').
    - assert (Hp' : parse_body R (PDict d') = ([], Ok (PDict []))).
      { unfold parse_body. now rewrite Hb', Ht. }
      rewrite (lambda_handler_answer R d' _ _ Hpre' Hp').
      unfold answer. now rewrite (validate_request_falsy v Ht).
  }
  split; [exact Htry|].
  intros Hlog Hlog'. rewrite (lambda_handler_logged R (PDict d) Hlog), (lambda_handler_logged R (PDict d') Hlog').
  exact Htry.
Qed.

Lemma decoded_body_same_answer_witness :
  let R := Mock.runtime Mock.test_env (Ok (Mock.reply_with_text Mock.answer)) in
  let text := Mock.body_of_message Mock.photosynthesis in
  let v := PDict [ (str "message", PStr Mock.photosynthesis) ] in
  let d := [ (str "body", PStr text) ] in
  let d' := [ (str "body", v) ] in
  (json_loads R text = Ok v /\ text <> [] /\ (forall t, v <> PStr t)) /\
  snd (lambda_handler R (PDict d)) = snd (lambda_handler R (PDict d')).
Proof.
  intros R text v d d'.
  split; [repeat split; try reflexivity; discriminate|].
  apply (decoded_body_same_answer R d d' text v); try reflexivity; discriminate.
Defined.

(** The validator on a body the Validator of the specification rejects:
    the error text, which is not empty. *)
Lemma validate_request_rejects (b : pyval) (empty : bool)
    (message : option pystr) (error : pystr) :
  body_view b = Some (empty, message) ->
  Validator empty message = Invalid error ->
  validate_request b = Ok (Some error) /\ truthy (PStr error) = true.
Proof.
  intros Hview Hval.
  destruct b as [| | | | | |d]; try discriminate Hview.
  - injection Hview as <- <-. injection Hval as <-. now split.
  - unfold body_view in Hview. destruct d as [|kv d].
    + injection Hview as <- <-. injection Hval as <-. now split.
    + rewrite (validate_request_dict (kv :: d)) by discriminate.
      unfold Validator in Hval.
      destruct (dict_get (str "message") (kv :: d)) as [v|].
      * destruct v; try discriminate Hview.
        injection Hview as <- <-. cbn zeta in Hval.
        destruct (List.length (strip s) =? 0)%nat;
          [injection Hval as <-; now split|].
        destruct (1000 <? List.length (strip s))%nat;
          [injection Hval as <-; now split|discriminate Hval].
      * injection Hview as <- <-. injection Hval as <-. now split.
Qed.

(** X7.  A request that is no preflight and whose decoded body the
    Validator of the specification rejects (no body, no message, a blank
    message, a message of more than 1000 characters once trimmed) is
    answered 400 with exactly the Validator's error text under [error], and
    the run ends at the validation: the chatbot is not built and the model
    is not called.
    Stated of the [try] statement, on every event, and of the handler, on
    every event that its first statement can log. *)
Theorem rejected_request_400 :
  forall (R : Runtime) (d : list (pystr * pyval)) (tp : list step) (b : pyval)
         (empty : bool) (message : option pystr) (error : pystr),
    is_preflight (PDict d) = false ->
    parse_body R (PDict d) = (tp, Ok b) ->
    body_view b = Some (empty, message) ->
    Validator empty message = Invalid error ->
    (lambda_handler_try R (PDict d)
    = (tp ++ [Validate b (Ok (Some error)); Return ValidationError],
       Ok (create_response R 400 (error_body error))) /\
    (forall x, In x (fst (lambda_handler_try R (PDict d))) -> is_inference x = false)) /\
    (dumps_raises R (PDict d) = None ->
     lambda_handler R (PDict d)
     = (tp ++ [Validate b (Ok (Some error)); Return ValidationError],
        Ok (create_response R 400 (error_body error))) /\
     (forall x, In x (fst (lambda_handler R (PDict d))) -> is_inference x = false)).
Proof.
  intros R d tp b empty message error Hpre Hp Hview Hval.
  assert (Htry :
      lambda_handler_try R (PDict d)
      = (tp ++ [Validate b (Ok (Some error)); Return ValidationError],
         Ok (create_response R 400 (error_body error))) /\
      (forall x, In x (fst (lambda_handler_try R (PDict d))) -> is_inference x = false)).
  {
    destruct (validate_request_rejects b empty message error Hview Hval) as [Hv Ht].
    pose proof (lambda_handler_invalid R d tp b error Hpre Hp Hv Ht) as Heq.
    split; [exact Heq|].
    rewrite Heq. cbn [fst]. intros x Hx. apply in_app_or in Hx as [Hx|Hx].
    - pose proof (parse_body_steps R _ _ _ x Hp Hx) as Hparse.
      now destruct x.
    - destruct Hx as [<-|[<-|[]]]; reflexivity.
  }
  split; [exact Htry|].
  intros Hlog. rewrite (lambda_handler_logged R (PDict d) Hlog).
  exact Htry.
Qed.

(** The third event of the repository's test (an empty message) and a
    message of 1001 characters. *)
Lemma rejected_request_400_witness :
  let R := Mock.runtime Mock.test_env (Ok (Mock.reply_with_text Mock.answer)) in
  let d := [ (str "body", PStr (Mock.body_of_message [])) ] in
  let b := PDict [ (str "message", PStr []) ] in
  let long := [ (str "body", PDict [ (str "message", PStr (repeat 97%N 1001)) ]) ] in
  (parse_body R (PDict d) = ([JsonLoads (Mock.body_of_message []) (Ok b)], Ok b) /\
   Validator false (Some []) = Invalid msg_message_required /\
   Validator false (Some (repeat 97%N 1001)) = Invalid msg_too_long) /\
  lambda_handler R (PDict d)
  = ([JsonLoads (Mock.body_of_message []) (Ok b);
      Validate b (Ok (Some msg_message_required)); Return ValidationError],
     Ok (create_response R 400 (error_body msg_message_required))) /\
  snd (lambda_handler R (PDict long))
  = Ok (create_response R 400 (error_body msg_too_long)).
Proof.
  intros R d b long.
  split; [split; [reflexivity|split; vm_compute; reflexivity]|split].
  - exact (proj1 (proj2 (rejected_request_400 R d
                           [JsonLoads (Mock.body_of_message []) (Ok b)] b
                           false (Some []) msg_message_required
                           eq_refl eq_refl eq_refl eq_refl) eq_refl)).
  - assert (Hlong : Validator false (Some (repeat 97%N 1001)) = Invalid msg_too_long)
      by (vm_compute; reflexivity).
    pose proof (proj1 (proj2 (rejected_request_400 R long []
                                (PDict [ (str "message", PStr (repeat 97%N 1001)) ])
                                false (Some (repeat 97%N 1001)) msg_too_long
                                eq_refl eq_refl eq_refl Hlong) eq_refl)) as Heq.
    exact (f_equal snd Heq).
Defined.

(** What the validator has accepted, and the handler then extracts, is a
    trimmed text of 1 to 1000 characters. *)
Lemma accepted_message (b : pyval) (m : pystr) :
  validate_request b = Ok None ->
  extract_message b = Ok m ->
  (1 <= List.length m <= 1000)%nat /\ exists s, m = strip s.
Proof.
  unfold validate_request, extract_message.
  destruct (negb (truthy b)); [discriminate|].
  destruct (py_get b (str "message") (PStr [])) as [v|]; cbn [bind];
    [|discriminate].
  destruct v; cbn [py_strip bind]; try discriminate.
  rewrite truthy_str.
  destruct (Nat.eqb_spec (List.length (strip s)) 0); cbn [negb]; [discriminate|].
  destruct (Nat.ltb_spec 1000 (List.length (strip s))); [discriminate|].
  intros _ [= <-]. split; [lia|now exists s].
Qed.

(** X8.  The chatbot is asked validated messages only: in every run of
    the handler, on any event, a message that reaches the inference stage
    has between 1 and 1000 characters and no whitespace at either end, and
    the outcome recorded is that of the chatbot on that message. *)
Theorem inference_only_on_valid_message :
  forall (R : Runtime) (event : pyval) (m : pystr) (r : result pyval),
    In (Inference m r) (fst (lambda_handler R event)) ->
    (1 <= List.length m <= 1000)%nat /\
    strip m = m /\
    starts_clean m /\ starts_clean (rev m) /\
    r = run_chatbot R m.
Proof.
  intros R event m r Hin.
  destruct (lambda_handler_traced R event _ Hin) as [_ Hlog]. rewrite Hlog in *.
  destruct (lambda_handler_try R event) as [tr res] eqn:Heq. cbn [fst] in Hin.
  apply lambda_handler_is_run in Heq as (resp & -> & Hrun).
  destruct (run_inference_inv R _ _ _ _ _ Hrun Hin)
    as (_ & (tp & b & _ & Hv & Hm) & Hr & _).
  destruct (accepted_message b m Hv Hm) as (Hlen & s & ->).
  repeat split; try lia; try assumption.
  - apply strip_idempotent.
  - apply strip_starts_clean.
  - apply strip_ends_clean.
Qed.

Lemma inference_only_on_valid_message_witness :
  let R := Mock.runtime Mock.test_env (Ok (Mock.reply_with_text Mock.answer)) in
  let event := Mock.post (Mock.body_of_message Mock.photosynthesis) in
  In (Inference Mock.photosynthesis (Ok (PStr Mock.answer)))
     (fst (lambda_handler R event)) /\
  ((1 <= List.length Mock.photosynthesis <= 1000)%nat /\
   strip Mock.photosynthesis = Mock.photosynthesis /\
   starts_clean Mock.photosynthesis /\ starts_clean (rev Mock.photosynthesis) /\
   Ok (PStr Mock.answer) = run_chatbot R Mock.photosynthesis).
Proof.
  intros R event.
  assert (Hin : In (Inference Mock.photosynthesis (Ok (PStr Mock.answer)))
                  (fst (lambda_handler R event))).
  { vm_compute. right. right. left. reflexivity. }
  split; [exact Hin|].
  exact (inference_only_on_valid_message R event Mock.photosynthesis _ Hin).
Defined.

(** The envelopes the [try] statement can return are these and no
    others: 200 with [{}]; 400 with one of the validator's three error
    texts; 400 with [Invalid JSON in request body]; 500 with
    [Internal server error] and the environment tag; 200 with the chatbot's
    reply, the tag and the model identifier.  The [return] taken decides
    which. *)
Lemma lambda_handler_try_catalogue :
  forall (R : Runtime) (event : pyval),
    exists (br : branch),
      returns (fst (lambda_handler_try R event)) = [br] /\
      match br with
      | Preflight =>
          snd (lambda_handler_try R event) = Ok (create_response R 200 (PDict []))
      | ValidationError =>
          exists message,
            (message = msg_body_required \/ message = msg_message_required \/
             message = msg_too_long) /\
            snd (lambda_handler_try R event)
            = Ok (create_response R 400 (error_body message))
      | ParseError =>
          snd (lambda_handler_try R event)
          = Ok (create_response R 400 (error_body msg_invalid_json))
      | InternalError =>
          snd (lambda_handler_try R event)
          = Ok (create_response R 500 (internal_error_body R))
      | Success =>
          exists t,
            snd (lambda_handler_try R event)
            = Ok (create_response R 200 (success_body R t))
      end.
Proof.
  intros R event.
  destruct (lambda_handler_run R event) as (tr & resp & Heq & Hrun).
  rewrite Heq. cbn [fst snd].
  assert (Hexn : forall e before,
            returns before = [] ->
            returns (before ++ [Return (exn_branch e)]) = [exn_branch e] /\
            match exn_branch e with
            | ParseError =>
                Ok (exn_response R e)
                = Ok (create_response R 400 (error_body msg_invalid_json))
            | InternalError =>
                Ok (exn_response R e)
                = Ok (create_response R 500 (internal_error_body R))
            | _ => False
            end).
  { intros e before Hb. rewrite returns_app, Hb. split; [reflexivity|].
    unfold exn_branch, exn_response. now destruct (is_JSONDecodeError e). }
  inversion Hrun as [Hd|Hpre|tp e Hpre Hp|tp b0 e Hpre Hp Hv
                    |tp b0 msg Hpre Hp Hv Ht|tp b0 m0 e Hpre Hp Hv Hm Hc
                    |tp b0 m0 t Hpre Hp Hv Hm Hc]; subst.
  - exists InternalError. now split.
  - exists Preflight. now split.
  - exists (exn_branch e).
    destruct (Hexn e tp (parse_body_returns R _ _ _ Hp)) as [H1 H2].
    split; [exact H1|].
    destruct (exn_branch e); try contradiction; exact H2.
  - exists (exn_branch e).
    destruct (Hexn e (tp ++ [Validate b0 (Raise e)])) as [H1 H2].
    { rewrite returns_app. now rewrite (parse_body_returns R _ _ _ Hp). }
    rewrite <- app_assoc in H1. split; [exact H1|].
    destruct (exn_branch e); try contradiction; exact H2.
  - exists ValidationError. split.
    + rewrite returns_app. now rewrite (parse_body_returns R _ _ _ Hp).
    + exists msg. split; [|reflexivity].
      destruct (validate_request_answers _ _ Hv) as [H|[H|[H|H]]];
        try (injection H as ->; auto); discriminate H.
  - exists (exn_branch e).
    destruct (Hexn e (tp ++ [Validate b0 (Ok None); Inference m0 (Raise e)]))
      as [H1 H2].
    { rewrite returns_app. now rewrite (parse_body_returns R _ _ _ Hp). }
    rewrite <- app_assoc in H1. split; [exact H1|].
    destruct (exn_branch e); try contradiction; exact H2.
  - exists Success. split.
    + rewrite returns_app. now rewrite (parse_body_returns R _ _ _ Hp).
    + now exists t.
Qed.

(** X9.  Whenever the handler returns an envelope, it is one of these and
    no other: 200 with [{}]; 400 with one of the validator's three error
    texts; 400 with [Invalid JSON in request body]; 500 with
    [Internal server error] and the environment tag; 200 with the chatbot's
    reply, the tag and the model identifier.  The one [return] taken decides
    which, and the text of an exception never reaches the envelope. *)
Theorem envelope_catalogue :
  forall (R : Runtime) (event : pyval) (resp : response),
    snd (lambda_handler R event) = Ok resp ->
    exists (br : branch),
      returns (fst (lambda_handler R event)) = [br] /\
      match br with
      | Preflight => resp = create_response R 200 (PDict [])
      | ValidationError =>
          exists message,
            (message = msg_body_required \/ message = msg_message_required \/
             message = msg_too_long) /\
            resp = create_response R 400 (error_body message)
      | ParseError => resp = create_response R 400 (error_body msg_invalid_json)
      | InternalError => resp = create_response R 500 (internal_error_body R)
      | Success => exists t, resp = create_response R 200 (success_body R t)
      end.
Proof.
  intros R event resp Hresp.
  destruct (lambda_handler_returned R event resp Hresp) as [_ Hlog].
  rewrite Hlog in *.
  destruct (lambda_handler_try_catalogue R event) as (br & Hret & Hbr).
  exists br. split; [exact Hret|].
  rewrite Hresp in Hbr.
  destruct br.
  - now injection Hbr as ->.
  - destruct Hbr as (message & Hm & Hbr). exists message.
    split; [exact Hm|]. now injection Hbr as ->.
  - destruct Hbr as (t & Hbr). exists t. now injection Hbr as ->.
  - now injection Hbr as ->.
  - now injection Hbr as ->.
Qed.

(** A message of 1001 characters: the envelope is the validator's 400. *)
Lemma envelope_catalogue_witness :
  let R := Mock.runtime Mock.test_env (Ok (Mock.reply_with_text Mock.answer)) in
  let event :=
    PDict [ (str "body", PDict [ (str "message", PStr (repeat 97%N 1001)) ]) ] in
  let resp := create_response R 400 (error_body msg_too_long) in
  snd (lambda_handler R event) = Ok resp /\
  exists (br : branch),
    returns (fst (lambda_handler R event)) = [br] /\
    match br with
    | Preflight => resp = create_response R 200 (PDict [])
    | ValidationError =>
        exists message,
          (message = msg_body_required \/ message = msg_message_required \/
           message = msg_too_long) /\
          resp = create_response R 400 (error_body message)
    | ParseError => resp = create_response R 400 (error_body msg_invalid_json)
    | InternalError => resp = create_response R 500 (internal_error_body R)
    | Success => exists t, resp = create_response R 200 (success_body R t)
    end.
Proof.
  intros R event resp.
  assert (H : snd (lambda_handler R event) = Ok resp) by (vm_compute; reflexivity).
  split; [exact H|].
  exact (envelope_catalogue R event resp H).
Defined.

(** ** A valid request, followed through the chatbot *)

(** The validator accepts a body object whose message is a text of 1 to
    1000 characters once trimmed. *)
Lemma validate_request_accepts (d : list (pystr * pyval)) (m : pystr) :
  dict_get (str "message") d = Some (PStr m) ->
  (1 <= List.length (strip m) <= 1000)%nat ->
  validate_request (PDict d) = Ok None.
Proof.
  intros Hg Hlen.
  rewrite validate_request_dict by (intros ->; discriminate Hg). rewrite Hg.
  destruct (Nat.eqb_spec (List.length (strip m)) 0); [lia|].
  destruct (Nat.ltb_spec 1000 (List.length (strip m))); [lia|reflexivity].
Qed.

(** The handler on a decoded body the validator accepts: the run goes on
    to the chatbot and ends as the chatbot's outcome has it. *)
Lemma lambda_handler_valid (R : Runtime) (d : list (pystr * pyval))
    (tp : list step) (b : pyval) (m : pystr) :
  is_preflight (PDict d) = false ->
  parse_body R (PDict d) = (tp, Ok b) ->
  validate_request b = Ok None ->
  extract_message b = Ok m ->
  lambda_handler_try R (PDict d) =
    match run_chatbot R m with
    | Ok t =>
        (tp ++ [Validate b (Ok None); Inference m (Ok t); Return Success],
         Ok (create_response R 200 (success_body R t)))
    | Raise e =>
        (tp ++ [Validate b (Ok None); Inference m (Raise e); Return (exn_branch e)],
         Ok (exn_response R e))
    end.
Proof.
  intros Hpre Hp Hv Hm.
  rewrite (lambda_handler_post R (PDict d) d eq_refl Hpre), Hp.
  unfold try_except, tbind, stage, quiet, leave. rewrite Hv. cbn [truthy_opt].
  rewrite Hm. destruct (run_chatbot R m) as [t|e]; cbn [app].
  - reflexivity.
  - rewrite handler_except_eq. unfold leave. now rewrite <- app_assoc.
Qed.

(** The chatbot the handler builds, when [boto3] gives a client: the
    client is for the configured region and the model is the configured
    one. *)
Lemma AcademicChatbot_init_ok (R : Runtime) (c : boto_client) :
  boto3_client R (str "bedrock-runtime") (Config.get_aws_region R) = Ok c ->
  AcademicChatbot_init R
  = Ok {| bedrock_client :=
            {| region := Config.get_aws_region R;
               client := c;
               model_id := Config.get_bedrock_model_id R |} |}.
Proof.
  intros Hc. unfold AcademicChatbot_init, BedrockClient_init. now rewrite Hc.
Qed.

Section ValidRequest.
Variable R : Runtime.
Variables (d bd : list (pystr * pyval)) (tp : list step) (m : pystr).
Variables (c : boto_client) (max_tokens : Z) (temperature : float).
Hypothesis Hpost : is_preflight (PDict d) = false.
Hypothesis Hbody : parse_body R (PDict d) = (tp, Ok (PDict bd)).
Hypothesis Hmessage : dict_get (str "message") bd = Some (PStr m).
Hypothesis Hlength : (1 <= List.length (strip m) <= 1000)%nat.
Hypothesis Hclient :
  boto3_client R (str "bedrock-runtime") (Config.get_aws_region R) = Ok c.
Hypothesis Hmax : Config.get_max_tokens R = Ok max_tokens.
Hypothesis Htemp : Config.get_temperature R = Ok temperature.

(** The request the handler sends to the model for this message. *)
Local Abbreviation sent :=
  (invoke_model R c (Config.get_bedrock_model_id R)
     (json_dumps R
        (request_payload max_tokens temperature (create_prompt (strip m))))).

Lemma run_chatbot_sent :
  run_chatbot R (strip m) =
    (raw <- sent ;;
     response_body <- json_loads R raw ;;
     content <- py_getitem_str response_body (str "content") ;;
     nonempty <- content_nonempty content ;;
     if nonempty then
       first <- py_getitem_0 content ;;
       py_getitem_str first (str "text")
     else Ok (PStr fallback_text)).
Proof.
  rewrite (run_chatbot_generate R _ (strip m) (AcademicChatbot_init_ok R c Hclient)).
  cbn [bedrock_client].
  now rewrite (generate_response_call R _ _ max_tokens temperature Hmax Htemp).
Qed.

Lemma lambda_handler_valid_request :
  lambda_handler_try R (PDict d) =
    match run_chatbot R (strip m) with
    | Ok t =>
        (tp ++ [Validate (PDict bd) (Ok None); Inference (strip m) (Ok t);
                Return Success],
         Ok (create_response R 200 (success_body R t)))
    | Raise e =>
        (tp ++ [Validate (PDict bd) (Ok None); Inference (strip m) (Raise e);
                Return (exn_branch e)],
         Ok (exn_response R e))
    end.
Proof.
  apply (lambda_handler_valid R d tp (PDict bd) (strip m) Hpost Hbody).
  - now apply (validate_request_accepts bd m).
  - now apply extract_message_text.
Qed.

(** X10.  A valid request, end to end.  When the request is no preflight,
    its body resolves to an object with a message of 1 to 1000 characters
    once trimmed, [boto3] gives a client for the configured region, the
    token limit and the temperature parse, and the model, called once with
    the configured model identifier and the JSON text of the payload built
    from the prompt for the trimmed message, replies with a content list
    whose first element has the text [t], then the handler returns 200 with
    [t] as [response], after validating and asking the chatbot once.
    Stated of the [try] statement, on every event, and of the handler, on
    every event that its first statement can log. *)
Theorem valid_request_end_to_end :
  forall (raw : pystr) (reply first : list (pystr * pyval)) (rest : list pyval)
         (t : pyval),
    sent = Ok raw ->
    json_loads R raw = Ok (PDict reply) ->
    dict_get (str "content") reply = Some (PList (PDict first :: rest)) ->
    dict_get (str "text") first = Some t ->
    (lambda_handler_try R (PDict d)
    = (tp ++ [Validate (PDict bd) (Ok None); Inference (strip m) (Ok t);
              Return Success],
       Ok (create_response R 200 (success_body R t)))) /\
    (dumps_raises R (PDict d) = None ->
     lambda_handler R (PDict d)
     = (tp ++ [Validate (PDict bd) (Ok None); Inference (strip m) (Ok t);
               Return Success],
        Ok (create_response R 200 (success_body R t)))).
Proof.
  intros raw reply first rest t Hs Hj Hc Ht.
  assert (Htry :
      lambda_handler_try R (PDict d)
      = (tp ++ [Validate (PDict bd) (Ok None); Inference (strip m) (Ok t);
                Return Success],
         Ok (create_response R 200 (success_body R t)))).
  {
    rewrite lambda_handler_valid_request, run_chatbot_sent, Hs. cbn [bind].
    rewrite Hj. cbn [bind py_getitem_str]. rewrite Hc. cbn. now rewrite Ht.
  }
  split; [exact Htry|].
  intros Hlog. rewrite (lambda_handler_logged R (PDict d) Hlog).
  exact Htry.
Qed.

(** X11.  A reply of the model that is no JSON is blamed on the request:
    when everything is as above but [json.loads] raises [JSONDecodeError]
    on the text the model returned, the valid request is answered 400 with
    [Invalid JSON in request body], through the handler's clause for
    [JSONDecodeError], and not 500.
    Stated of the [try] statement, on every event, and of the handler, on
    every event that its first statement can log. *)
Theorem undecodable_reply_400 :
  forall (raw : pystr) (detail : string),
    sent = Ok raw ->
    json_loads R raw = Raise (JSONDecodeError detail) ->
    (lambda_handler_try R (PDict d)
    = (tp ++ [Validate (PDict bd) (Ok None);
              Inference (strip m) (Raise (JSONDecodeError detail));
              Return ParseError],
       Ok (create_response R 400 (error_body msg_invalid_json)))) /\
    (dumps_raises R (PDict d) = None ->
     lambda_handler R (PDict d)
     = (tp ++ [Validate (PDict bd) (Ok None);
               Inference (strip m) (Raise (JSONDecodeError detail));
               Return ParseError],
        Ok (create_response R 400 (error_body msg_invalid_json)))).
Proof.
  intros raw detail Hs Hj.
  assert (Htry :
      lambda_handler_try R (PDict d)
      = (tp ++ [Validate (PDict bd) (Ok None);
                Inference (strip m) (Raise (JSONDecodeError detail));
                Return ParseError],
         Ok (create_response R 400 (error_body msg_invalid_json)))).
  {
    rewrite lambda_handler_valid_request, run_chatbot_sent, Hs. cbn [bind].
    now rewrite Hj.
  }
  split; [exact Htry|].
  intros Hlog. rewrite (lambda_handler_logged R (PDict d) Hlog).
  exact Htry.
Qed.

End ValidRequest.

(** The first event of the repository's test, with the model stubbed to
    answer. *)
Lemma valid_request_end_to_end_witness :
  let R := Mock.runtime Mock.test_env (Ok (Mock.reply_with_text Mock.answer)) in
  let text := Mock.body_of_message Mock.photosynthesis in
  let d := [ (str "body", PStr text) ] in
  let bd := [ (str "message", PStr Mock.photosynthesis) ] in
  let c := {| service_name := str "bedrock-runtime";
              region_name := str "us-east-1" |} in
  (is_preflight (PDict d) = false /\
   parse_body R (PDict d) = ([JsonLoads text (Ok (PDict bd))], Ok (PDict bd)) /\
   boto3_client R (str "bedrock-runtime") (Config.get_aws_region R) = Ok c /\
   invoke_model R c (Config.get_bedrock_model_id R)
     (json_dumps R (request_payload 1000 0.5%float
                      (create_prompt (strip Mock.photosynthesis))))
   = Ok (Mock.reply_with_text Mock.answer)) /\
  lambda_handler R (PDict d)
  = ([JsonLoads text (Ok (PDict bd)); Validate (PDict bd) (Ok None);
      Inference Mock.photosynthesis (Ok (PStr Mock.answer)); Return Success],
     Ok (create_response R 200 (success_body R (PStr Mock.answer)))).
Proof.
  intros R text d bd c. split; [repeat split|].
  assert (Hlen : (1 <= List.length (strip Mock.photosynthesis) <= 1000)%nat).
  { change (List.length (strip Mock.photosynthesis)) with 23%nat. lia. }
  exact (proj2
           (valid_request_end_to_end R d bd [JsonLoads text (Ok (PDict bd))]
              Mock.photosynthesis c 1000%Z 0.5%float
              eq_refl eq_refl eq_refl Hlen eq_refl eq_refl eq_refl
              (Mock.reply_with_text Mock.answer)
              [ (str "content",
                 PList [ PDict [ (str "type", PStr (str "text"));
                                 (str "text", PStr Mock.answer) ] ]) ]
              [ (str "type", PStr (str "text")); (str "text", PStr Mock.answer) ]
              [] (PStr Mock.answer) eq_refl eq_refl eq_refl eq_refl)
           eq_refl).
Defined.

(** The same request, with the model stubbed to return a text that is no
    JSON. *)
Lemma undecodable_reply_400_witness :
  let R := Mock.runtime Mock.test_env (Ok (str "invalid json")) in
  let text := Mock.body_of_message Mock.photosynthesis in
  let d := [ (str "body", PStr text) ] in
  let bd := [ (str "message", PStr Mock.photosynthesis) ] in
  let c := {| service_name := str "bedrock-runtime";
              region_name := str "us-east-1" |} in
  (json_loads R text = Ok (PDict bd) /\
   json_loads R (str "invalid json") = Raise (JSONDecodeError "Expecting value")) /\
  lambda_handler R (PDict d)
  = ([JsonLoads text (Ok (PDict bd)); Validate (PDict bd) (Ok None);
      Inference Mock.photosynthesis (Raise (JSONDecodeError "Expecting value"));
      Return ParseError],
     Ok (create_response R 400 (error_body msg_invalid_json))).
Proof.
  intros R text d bd c. split; [split; reflexivity|].
  assert (Hlen : (1 <= List.length (strip Mock.photosynthesis) <= 1000)%nat).
  { change (List.length (strip Mock.photosynthesis)) with 23%nat. lia. }
  exact (proj2
           (undecodable_reply_400 R d bd [JsonLoads text (Ok (PDict bd))]
              Mock.photosynthesis c 1000%Z 0.5%float
              eq_refl eq_refl eq_refl Hlen eq_refl eq_refl eq_refl
              (str "invalid json") "Expecting value" eq_refl eq_refl)
           eq_refl).
Defined.

(** ** The shapes of a reply *)

(** X12.  What [generate_response] makes of the decoded reply of a call
    that succeeded.  The fixed apology is the result for a [content] that
    is falsy in any way ([[]], [null], the empty str, zero, [false], [{}]),
    not for the empty list alone.  Every other departure from a list of
    objects with a [text] raises: [TypeError] when the reply is no object
    or [content] is a number or [true], [KeyError] when the reply has no
    [content] or the first element of the list has no [text]. *)
Theorem generate_response_reply_shapes :
  forall (R : Runtime) (self : BedrockClient) (prompt : pystr)
         (max_tokens : Z) (temperature : float) (raw : pystr),
    Config.get_max_tokens R = Ok max_tokens ->
    Config.get_temperature R = Ok temperature ->
    invoke_model R (client self) (model_id self)
      (json_dumps R (request_payload max_tokens temperature prompt)) = Ok raw ->
    (forall reply content,
       json_loads R raw = Ok (PDict reply) ->
       dict_get (str "content") reply = Some content ->
       truthy content = false ->
       generate_response R self prompt = Ok (PStr fallback_text)) /\
    (forall v,
       json_loads R raw = Ok v ->
       (forall reply, v <> PDict reply) ->
       exists detail, generate_response R self prompt = Raise (TypeError detail)) /\
    (forall reply,
       json_loads R raw = Ok (PDict reply) ->
       dict_get (str "content") reply = None ->
       exists detail, generate_response R self prompt = Raise (KeyError detail)) /\
    (forall reply content,
       json_loads R raw = Ok (PDict reply) ->
       dict_get (str "content") reply = Some content ->
       truthy content = true ->
       (exists z, content = PInt z) \/ (exists f, content = PFloat f) \/
       content = PBool true ->
       exists detail, generate_response R self prompt = Raise (TypeError detail)) /\
    (forall reply first rest,
       json_loads R raw = Ok (PDict reply) ->
       dict_get (str "content") reply = Some (PList (PDict first :: rest)) ->
       dict_get (str "text") first = None ->
       exists detail, generate_response R self prompt = Raise (KeyError detail)).
Proof.
  intros R self prompt max_tokens temperature raw Hmax Htemp Hcall.
  rewrite (generate_response_call R self prompt max_tokens temperature Hmax Htemp).
  rewrite Hcall. cbn [bind].
  split; [|split; [|split; [|split]]].
  - intros reply content Hj Hc Ht. rewrite Hj. cbn [bind py_getitem_str].
    rewrite Hc. cbn [bind]. unfold content_nonempty. now rewrite Ht.
  - intros v Hj Hv. rewrite Hj. cbn [bind].
    destruct v; cbn; eauto. now destruct (Hv d).
  - intros reply Hj Hc. rewrite Hj. cbn [bind py_getitem_str]. rewrite Hc.
    cbn. eauto.
  - intros reply content Hj Hc Ht Hkind. rewrite Hj. cbn [bind py_getitem_str].
    rewrite Hc. cbn [bind]. unfold content_nonempty. rewrite Ht.
    destruct Hkind as [(z & ->) | [(f & ->) | ->]]; cbn; eauto.
  - intros reply first rest Hj Hc Ht. rewrite Hj. cbn [bind py_getitem_str].
    rewrite Hc. cbn. rewrite Ht. eexists. reflexivity.
Qed.

(** A reply [{"content": null}] gives the apology; a reply [42] raises. *)
Lemma generate_response_reply_shapes_witness :
  let null_content := PDict [ (str "content", PNone) ] in
  let R :=
    {| getenv := fun key => Mock.table_get key Mock.test_env;
       py_int := Mock.int;
       py_float := Mock.float;
       json_loads := fun _ => Ok null_content;
       json_dumps := Mock.dumps;
       dumps_raises := Mock.refuses;
       boto3_client := fun service r =>
         Ok {| service_name := service; region_name := r |};
       invoke_model := fun _ _ _ => Ok (str "{}") |} in
  let S := Mock.runtime Mock.test_env (Ok (str "42")) in
  let self :=
    {| region := str "us-east-1";
       client := {| service_name := str "bedrock-runtime";
                    region_name := str "us-east-1" |};
       model_id := default_model_id |} in
  let prompt := create_prompt Mock.photosynthesis in
  (Config.get_max_tokens R = Ok 1000%Z /\
   Config.get_temperature R = Ok 0.5%float /\
   truthy PNone = false /\
   json_loads S (str "42") = Ok (PInt 42)) /\
  generate_response R self prompt = Ok (PStr fallback_text) /\
  (exists detail, generate_response S self prompt = Raise (TypeError detail)).
Proof.
  intros null_content R S self prompt.
  split; [repeat split|split].
  - destruct (generate_response_reply_shapes R self prompt 1000%Z 0.5%float
                (str "{}") eq_refl eq_refl eq_refl) as (Hshape & _).
    exact (Hshape [ (str "content", PNone) ] PNone eq_refl eq_refl eq_refl).
  - destruct (generate_response_reply_shapes S self prompt 1000%Z 0.5%float
                (str "42") eq_refl eq_refl eq_refl) as (_ & Hshape & _).
    apply (Hshape (PInt 42) eq_refl). discriminate.
Defined.

(** ** The prompt *)

(** The prompt is the message between two fixed texts. *)
Lemma create_prompt_length (m : pystr) :
  List.length (create_prompt m)
  = (List.length prompt_head + List.length m + List.length prompt_tail)%nat.
Proof. unfold create_prompt. rewrite !length_app. lia. Qed.

(** X13.  [create_prompt] keeps the message whole and apart: two messages
    with the same prompt are the same message, the prompt is the message
    with 329 characters before it and 285 after it, and so a validated
    message gives a prompt of at most 1614 characters. *)
Theorem create_prompt_injective :
  forall (m m' : pystr),
    (create_prompt m = create_prompt m' -> m = m') /\
    List.length (create_prompt m) = (329 + List.length m + 285)%nat /\
    firstn 329 (create_prompt m) = prompt_head /\
    skipn (329 + List.length m) (create_prompt m) = prompt_tail /\
    firstn (List.length m) (skipn 329 (create_prompt m)) = m.
Proof.
  intros m m'.
  assert (Hh : List.length prompt_head = 329%nat) by (vm_compute; reflexivity).
  assert (Ht : List.length prompt_tail = 285%nat) by (vm_compute; reflexivity).
  split; [|split; [|split; [|split]]].
  - unfold create_prompt. intros H.
    apply app_inv_head in H. now apply app_inv_tail in H.
  - rewrite create_prompt_length, Hh, Ht. lia.
  - unfold create_prompt. rewrite <- Hh.
    rewrite firstn_app, firstn_all, Nat.sub_diag. cbn [firstn].
    apply app_nil_r.
  - unfold create_prompt. rewrite app_assoc, <- Hh, <- length_app.
    rewrite skipn_app, skipn_all, Nat.sub_diag. reflexivity.
  - unfold create_prompt. rewrite <- Hh.
    rewrite skipn_app, skipn_all, Nat.sub_diag. cbn [skipn app].
    rewrite firstn_app, firstn_all, Nat.sub_diag. cbn [firstn].
    apply app_nil_r.
Qed.

(** ** Configuration met late *)

(** X14.  The numeric settings are parsed when the chatbot is asked, not
    before: with a client at hand and [MAX_TOKENS] (or, the token limit
    parsing, [TEMPERATURE]) set to a text on which [int] (or [float])
    raises, every run that reaches the inference stage has that error as
    the outcome of the stage, and, the error being no JSON decode error,
    ends with the 500 envelope; the model is not called. *)
Theorem malformed_setting_500 :
  forall (R : Runtime) (event : pyval) (m : pystr) (r : result pyval)
         (c : boto_client) (e : exn),
    In (Inference m r) (fst (lambda_handler R event)) ->
    boto3_client R (str "bedrock-runtime") (Config.get_aws_region R) = Ok c ->
    (Config.get_max_tokens R = Raise e \/
     (exists max_tokens, Config.get_max_tokens R = Ok max_tokens) /\
     Config.get_temperature R = Raise e) ->
    r = Raise e /\
    (is_JSONDecodeError e = false ->
     snd (lambda_handler R event)
     = Ok (create_response R 500 (internal_error_body R))).
Proof.
  intros R event m r c e Hin Hc Hcfg.
  destruct (lambda_handler_traced R event _ Hin) as [_ Hlog]. rewrite Hlog in *.
  destruct (lambda_handler_try R event) as [tr res] eqn:Heq. cbn [fst snd] in *.
  apply lambda_handler_is_run in Heq as (resp & -> & Hrun).
  destruct (run_inference_inv R _ _ _ _ _ Hrun Hin) as (_ & _ & Hr & Hresp).
  assert (Hraise : run_chatbot R m = Raise e).
  { rewrite (run_chatbot_generate R _ m (AcademicChatbot_init_ok R c Hc)).
    unfold generate_response.
    destruct Hcfg as [->|[(max_tokens & ->) ->]]; reflexivity. }
  rewrite Hraise in Hr. subst r. split; [reflexivity|].
  intros He. rewrite Hresp. unfold exn_response. now rewrite He.
Qed.

(** With [MAX_TOKENS=many] the question about photosynthesis is answered
    500. *)
Lemma malformed_setting_500_witness :
  let R := Mock.runtime [ (str "MAX_TOKENS", str "many") ]
             (Ok (Mock.reply_with_text Mock.answer)) in
  let event := Mock.post (Mock.body_of_message Mock.photosynthesis) in
  let e := ValueError "invalid literal for int() with base 10" in
  (In (Inference Mock.photosynthesis (Raise e)) (fst (lambda_handler R event)) /\
   Config.get_max_tokens R = Raise e) /\
  snd (lambda_handler R event)
  = Ok (create_response R 500 (internal_error_body R)).
Proof.
  intros R event e.
  assert (Hin : In (Inference Mock.photosynthesis (Raise e))
                  (fst (lambda_handler R event))).
  { vm_compute. right. right. left. reflexivity. }
  split; [split; [exact Hin|reflexivity]|].
  apply (malformed_setting_500 R event Mock.photosynthesis (Raise e)
           {| service_name := str "bedrock-runtime";
              region_name := str "us-east-1" |} e Hin eq_refl).
  - left. reflexivity.
  - reflexivity.
Defined.

(** ** Events of other shapes *)

(** X15.  An event that is no dict (a list, a str, a number, [null], as
    an invocation with such a payload gives) and that the first statement
    can log is answered 500: [event.get] raises inside the [try], and
    nothing is decoded, validated or asked. *)
Theorem non_dict_event_500 :
  forall (R : Runtime) (event : pyval),
    (forall d, event <> PDict d) ->
    dumps_raises R event = None ->
    lambda_handler R event
    = ([Return InternalError], Ok (create_response R 500 (internal_error_body R))) /\
    is_preflight event = false.
Proof.
  intros R event Hd Hlog. rewrite (lambda_handler_logged R event Hlog). split.
  - now apply lambda_handler_not_a_dict.
  - destruct event; try reflexivity. now destruct (Hd d).
Qed.

Lemma non_dict_event_500_witness :
  let R := Mock.runtime Mock.test_env (Ok (Mock.reply_with_text Mock.answer)) in
  let event := PList [ PStr (Mock.body_of_message Mock.photosynthesis) ] in
  ((forall d, event <> PDict d) /\ dumps_raises R event = None) /\
  lambda_handler R event
  = ([Return InternalError], Ok (create_response R 500 (internal_error_body R))).
Proof.
  intros R event.
  assert (Hd : forall d, event <> PDict d) by discriminate.
  split; [split; [exact Hd|reflexivity]|].
  exact (proj1 (non_dict_event_500 R event Hd eq_refl)).
Defined.

(** X16.  The handler raises exactly when [json.dumps] refuses the event
    at the first statement, and then it raises what [json.dumps] raised,
    with no step taken.  On every other event it returns an envelope and
    raises nothing: the run ends with exactly one of the five [return]
    statements and the status of the envelope is the status of that branch
    (200 for the preflight and for success, 400 for a validation error and
    for a parse error, 500 for the catch-all). *)
Theorem lambda_handler_raises_exactly :
  forall (R : Runtime) (event : pyval),
    (forall e, dumps_raises R event = Some e ->
               lambda_handler R event = ([], Raise e)) /\
    (dumps_raises R event = None ->
     exists (br : branch) (resp : response) (before : list step),
       lambda_handler R event = (before ++ [Return br], Ok resp) /\
       returns before = [] /\
       statusCode resp = status_of br) /\
    (forall e, snd (lambda_handler R event) = Raise e ->
               dumps_raises R event = Some e).
Proof.
  intros R event. split; [|split].
  - intros e. apply lambda_handler_unlogged.
  - intros Hlog. rewrite (lambda_handler_logged R event Hlog).
    destruct (lambda_handler_try_one_branch R event)
      as (br & resp & before & Heq & Hb & _ & Hs).
    exists br, resp, before. now repeat split.
  - intros e He. destruct (dumps_raises R event) as [e'|] eqn:Hd.
    + rewrite (lambda_handler_unlogged R event e' Hd) in He.
      now injection He as ->.
    + rewrite (lambda_handler_logged R event Hd) in He.
      destruct (lambda_handler_try_one_branch R event)
        as (br & resp & before & Heq & _).
      rewrite Heq in He. discriminate He.
Qed.

(** The question of the repository's test is answered; the same question
    in an event that holds an int of 4301 digits raises. *)
Lemma lambda_handler_raises_exactly_witness :
  let R := Mock.runtime Mock.test_env (Ok (Mock.reply_with_text Mock.answer)) in
  let refused :=
    ValueError "Exceeds the limit (4300 digits) for integer string conversion" in
  let text := PStr (Mock.body_of_message Mock.photosynthesis) in
  let plain := PDict [ (str "body", text) ] in
  let huge := PDict [ (str "body", text); (str "stamp", PInt (10 ^ 4300)) ] in
  (dumps_raises R plain = None /\ dumps_raises R huge = Some refused) /\
  (exists (br : branch) (resp : response) (before : list step),
     lambda_handler R plain = (before ++ [Return br], Ok resp) /\
     returns before = [] /\
     statusCode resp = status_of br) /\
  lambda_handler R huge = ([], Raise refused).
Proof.
  intros R refused text plain huge.
  assert (Hhuge : dumps_raises R huge = Some refused) by (vm_compute; reflexivity).
  split; [split; [reflexivity|exact Hhuge]|].
  destruct (lambda_handler_raises_exactly R plain) as (_ & Hplain & _).
  destruct (lambda_handler_raises_exactly R huge) as (Hraise & _).
  split; [exact (Hplain eq_refl)|exact (Hraise refused Hhuge)].
Defined.
